(** * extract_pdf.py: a shallow embedding and its verified properties

    The script tries three PDF text-extraction libraries on one file,
    collects the outputs that succeeded into a dict, picks one of them as
    the main content by a fixed priority and renders a Markdown report.

    The three libraries, the file system and the clock are not part of the
    script; they appear here as a record of oracles ([world]).  Everything
    the script itself does (the loops over pages, the [try]/[except]
    blocks, the dict, the truthiness tests, the f-strings) is translated
    function by function.

    The development has two embeddings of the script.  The first takes
    every raised object to be an instance of [Exception] and every [print]
    to succeed; most properties are stated in it.  The second (module
    [Signals]) also has raised objects that [except Exception] does not
    catch and a console that can fail; it is proved equal to the first
    wherever nothing of the kind happens, and it shows what escapes the
    handlers. *)

From Stdlib Require Import Ascii String DecimalString.
From Stdlib Require Import List NArith Arith Bool Lia.
Import ListNotations.

Set Implicit Arguments.

(* ===================================================================== *)
(** ** Python strings *)
(* ===================================================================== *)

(** A Python [str] is a sequence of Unicode code points. *)
Definition char := N.
Definition str := list char.

Module Utf8.

(** Source literals are written as Rocq strings, which are the UTF-8
    bytes of the text; [decode] turns them into code points. *)
Fixpoint decode (bs : list N) : str :=
  match bs with
  | [] => []
  | b :: r =>
      if (b <? 128)%N then b :: decode r
      else if (b <? 224)%N then
        match r with
        | c1 :: r' => ((b - 192) * 64 + (c1 - 128))%N :: decode r'
        | _ => []
        end
      else if (b <? 240)%N then
        match r with
        | c1 :: c2 :: r' =>
            ((b - 224) * 4096 + (c1 - 128) * 64 + (c2 - 128))%N :: decode r'
        | _ => []
        end
      else
        match r with
        | c1 :: c2 :: c3 :: r' =>
            ((b - 240) * 262144 + (c1 - 128) * 4096
             + (c2 - 128) * 64 + (c3 - 128))%N :: decode r'
        | _ => []
        end
  end.

Definition bytes (s : string) : list N :=
  map N_of_ascii (list_ascii_of_string s).

End Utf8.

(** [u "text"] is the Python literal ["text"]. *)
Definition u (s : string) : str := Utf8.decode (Utf8.bytes s).

(** ["\n"] *)
Definition nl : str := [10%N].

(** [str(n)] for a non-negative [int], as an f-string field formats it. *)
Definition str_of_nat (n : nat) : str :=
  Utf8.bytes (NilEmpty.string_of_uint (Nat.to_uint n)).

(** [str.isspace] on one code point: the code points CPython classifies
    as whitespace. *)
Definition isspace (c : char) : bool :=
  ((9 <=? c) && (c <=? 13) || (28 <=? c) && (c <=? 32)
   || (c =? 133) || (c =? 160) || (c =? 5760)
   || (8192 <=? c) && (c <=? 8202)
   || (c =? 8232) || (c =? 8233) || (c =? 8239) || (c =? 8287)
   || (c =? 12288))%N.

Fixpoint lstrip (s : str) : str :=
  match s with
  | [] => []
  | c :: r => if isspace c then lstrip r else s
  end.

Definition rstrip (s : str) : str := rev (lstrip (rev s)).

(** [s.strip()] *)
Definition strip (s : str) : str := rstrip (lstrip s).

(** Truth value of a [str]: the empty string is false. *)
Definition truthy_str (s : str) : bool :=
  match s with [] => false | _ :: _ => true end.

(** Truth value of a value that is [None] or a [str]. *)
Definition truthy (o : option str) : bool :=
  match o with None => false | Some s => truthy_str s end.

(** [s == t] on strings. *)
Definition str_eqb (s t : str) : bool :=
  if list_eq_dec N.eq_dec s t then true else false.

(* ===================================================================== *)
(** ** Exceptions, observable events and the effect monad *)
(* ===================================================================== *)

(** The three backends, and the identifier the script uses for each: a
    key of the results dict and the name printed in the report. *)
Inductive backend : Type := PyPDF2 | PDFMiner | PyMuPDF.

Definition backend_name (b : backend) : str :=
  match b with
  | PyPDF2 => u "PyPDF2"
  | PDFMiner => u "PDFMiner"
  | PyMuPDF => u "PyMuPDF"
  end.

(** An exception object: an instance of Python's [Exception], the class
    every handler of the script names ([except Exception as e]).

    [Exception msg] is an instance raised by a library, by a file operation
    or by the interpreter, of whatever class (ImportError, OSError, a
    parser fault, the AttributeError of calling [.strip()] on a non-string,
    a KeyError of a library, ...); the script looks at such an object only
    through [f"{e}"], and [msg] is that text, [str(e)].

    [KeyError key] is the exception of the script's own failed lookup
    [results['<name of key>']]; the three backend names are the only keys
    it looks up. *)
Inductive exn : Type :=
| KeyError (key : backend)
| Exception (msg : str).

(** [str(e)], as [f"{e}"] formats it.  The text of a KeyError is the
    [repr] of its key, which for the three backend names is the name
    between single quotes. *)
Definition exn_str (e : exn) : str :=
  match e with
  | KeyError key => u "'" ++ backend_name key ++ u "'"
  | Exception msg => msg
  end.

(** The result of evaluating a Python expression or call. *)
Inductive outcome (A : Type) : Type :=
| Return (a : A)
| Raise (e : exn).
Arguments Raise {A} e.

(** What a run does that is visible from outside. *)
Inductive event : Type :=
| Print (line : str)                    (* [print(line)] *)
| Invoke (b : backend) (pdf_path : str) (* an extractor function is entered *)
| WriteFile (path text : str).  (* the attempt to [open(path, 'w')] and
                                   [write(text)], whatever comes of it *)

(** A computation yields a result or an exception, and the events it
    produced up to that point, oldest first. *)
Definition M (A : Type) : Type := (outcome A * list event)%type.

Definition ret {A} (a : A) : M A := (Return a, []).

Definition bind {A B} (m : M A) (k : A -> M B) : M B :=
  match m with
  | (Return a, t) => let (r, t') := k a in (r, t ++ t')
  | (Raise e, t) => (Raise e, t)
  end.

Definition emit (ev : event) : M unit := (Return tt, [ev]).

Definition print (line : str) : M unit := emit (Print line).

(** A call into a library: its outcome is given by the [world]. *)
Definition lib {A} (o : outcome A) : M A := (o, []).

(** [try: body  except Exception as e: handler e] *)
Definition try_except {A} (body : M A) (handler : exn -> M A) : M A :=
  match body with
  | (Return a, t) => (Return a, t)
  | (Raise e, t) => let (r, t') := handler e in (r, t ++ t')
  end.

Declare Scope py_scope.
Delimit Scope py_scope with py.
Notation "x <- c ;; k" := (bind c (fun x => k))
  (at level 61, c at next level, right associativity) : py_scope.
Notation "' p <- c ;; k" := (bind c (fun x => let 'p := x in k))
  (at level 61, p pattern, c at next level, right associativity) : py_scope.
Notation "c ;; k" := (bind c (fun _ => k))
  (at level 61, right associativity) : py_scope.
Local Open Scope py_scope.

Definition value {A} (m : M A) : outcome A := fst m.
Definition trace {A} (m : M A) : list event := snd m.

(** [for x in xs: s = body x s] *)
Fixpoint for_each {A S : Type} (xs : list A) (body : A -> S -> M S) (s : S)
  : M S :=
  match xs with
  | [] => ret s
  | x :: r => s' <- body x s ;; for_each r body s'
  end.

(** [enumerate(xs, start)] *)
Definition enumerate {A} (start : nat) (xs : list A) : list (nat * A) :=
  combine (seq start (length xs)) xs.

(** [range(n)] *)
Definition range (n : nat) : list nat := seq 0 n.

(* ===================================================================== *)
(** ** The dict of successful results *)
(* ===================================================================== *)

(** A Python dict keeps its keys in insertion order, and the report walks
    [results.items()], so the dict is an association list in that order. *)
Definition dict := list (str * str).

(** [key in d] *)
Fixpoint dict_mem (key : str) (d : dict) : bool :=
  match d with
  | [] => false
  | (k, _) :: r => str_eqb k key || dict_mem key r
  end.

Fixpoint dict_get (d : dict) (key : str) : option str :=
  match d with
  | [] => None
  | (k, v) :: r => if str_eqb k key then Some v else dict_get r key
  end.

(** [d['<name of key>']] *)
Definition getitem (d : dict) (key : backend) : M str :=
  match dict_get d (backend_name key) with
  | Some v => ret v
  | None => lib (Raise (KeyError key))
  end.

(** [d[key] = v]: an existing key keeps its place, a new key goes last. *)
Fixpoint dict_set (d : dict) (key v : str) : dict :=
  match d with
  | [] => [(key, v)]
  | (k, v') :: r =>
      if str_eqb k key then (k, v) :: r else (k, v') :: dict_set r key v
  end.

Definition dict_keys (d : dict) : list str := map fst d.

(** Truth value of a dict: the empty dict is false. *)
Definition truthy_dict (d : dict) : bool :=
  match d with [] => false | _ :: _ => true end.

(* ===================================================================== *)
(** ** The environment *)
(* ===================================================================== *)

(** What the script asks of the outside: the file system, the three
    libraries and the clock.  A document is the list of its pages, each page
    being the outcome of asking the library for that page's text. *)
Record world : Type := {
  (** [os.path.exists(path)] *)
  os_path_exists : str -> bool;
  (** [from PyPDF2 import PdfReader], [open(path, 'rb')],
      [PdfReader(file)] and [reader.pages]; then [page.extract_text()] *)
  PdfReader_pages : str -> outcome (list (outcome str));
  (** [from pdfminer.high_level import extract_text], [extract_text(path)] *)
  pdfminer_extract_text : str -> outcome str;
  (** [import fitz], [fitz.open(path)]; then [doc[i].get_text()] *)
  fitz_open : str -> outcome (list (outcome str));
  (** [doc.close()] *)
  fitz_close : str -> outcome unit;
  (** [str(datetime.datetime.now())] *)
  datetime_now : str;
  (** [with open(path, 'w', encoding='utf-8') as f: f.write(text)] *)
  open_write : str -> str -> outcome unit
}.

(* ===================================================================== *)
(** ** The script *)
(* ===================================================================== *)

Section Script.

Variable w : world.

(** [f"\n=== 第 {page_num} 页 (PyPDF2) ===\n"] and its PyMuPDF twin *)
Definition page_marker (page_num : nat) (b : backend) : str :=
  nl ++ u "=== 第 " ++ str_of_nat page_num ++ u " 页 ("
     ++ backend_name b ++ u ") ===" ++ nl.

(** The body of the page loop of [extract_with_pypdf2], lines 24-27. *)
Definition pypdf2_page (item : nat * outcome str) (text : str) : M str :=
  let '(page_num, page) := item in
  page_text <- lib page ;;
  if truthy_str (strip page_text) then
    let text := text ++ page_marker page_num PyPDF2 in
    let text := text ++ (page_text ++ nl) in
    ret text
  else ret text.

Definition extract_with_pypdf2 (pdf_path : str) : M (option str) :=
  emit (Invoke PyPDF2 pdf_path) ;;
  try_except
    (pages <- lib (PdfReader_pages w pdf_path) ;;
     let text := [] in
     print (u "PyPDF2: 检测到 " ++ str_of_nat (length pages) ++ u " 页") ;;
     text <- for_each (enumerate 1 pages) pypdf2_page text ;;
     ret (Some text))
    (fun e =>
       print (u "PyPDF2 提取失败: " ++ exn_str e) ;;
       ret None).

Definition extract_with_pdfminer (pdf_path : str) : M (option str) :=
  emit (Invoke PDFMiner pdf_path) ;;
  try_except
    (text <- lib (pdfminer_extract_text w pdf_path) ;;
     if truthy_str (strip text) then
       ret (Some (nl ++ u "=== PDFMiner提取结果 ===" ++ nl ++ text ++ nl))
     else ret None)
    (fun e =>
       print (u "PDFMiner 提取失败: " ++ exn_str e) ;;
       ret None).

(** [doc[page_num]] followed by [page.get_text()] *)
Definition fitz_page_text (doc : list (outcome str)) (page_num : nat)
  : M str :=
  match nth_error doc page_num with
  | Some page => lib page
  | None => lib (Raise (Exception (u "page not in document")))
  end.

(** The body of the page loop of [extract_with_pymupdf], lines 58-62. *)
Definition pymupdf_page (doc : list (outcome str)) (page_num : nat)
    (text : str) : M str :=
  page_text <- fitz_page_text doc page_num ;;
  if truthy_str (strip page_text) then
    let text := text ++ page_marker (page_num + 1) PyMuPDF in
    let text := text ++ (page_text ++ nl) in
    ret text
  else ret text.

Definition extract_with_pymupdf (pdf_path : str) : M (option str) :=
  emit (Invoke PyMuPDF pdf_path) ;;
  try_except
    (doc <- lib (fitz_open w pdf_path) ;;
     let text := [] in
     print (u "PyMuPDF: 检测到 " ++ str_of_nat (length doc) ++ u " 页") ;;
     text <- for_each (range (length doc)) (pymupdf_page doc) text ;;
     lib (fitz_close w pdf_path) ;;
     ret (Some text))
    (fun e =>
       print (u "PyMuPDF 提取失败: " ++ exn_str e) ;;
       ret None).

(** [if text: results[key] = text; print(...)], lines 84-86, 91-93 and
    98-100. *)
Definition record_result (results : dict) (b : backend)
    (text : option str) : M dict :=
  if truthy text then
    match text with
    | Some t =>
        let results := dict_set results (backend_name b) t in
        print (backend_name b ++ u " 提取成功") ;;
        ret results
    | None => ret results
    end
  else ret results.

(** Lines 79-100: run the three extractors and collect what succeeded. *)
Definition collect_results (pdf_path : str) : M dict :=
  let results : dict := [] in
  print (nl ++ u "尝试使用 PyPDF2...") ;;
  pypdf2_text <- extract_with_pypdf2 pdf_path ;;
  results <- record_result results PyPDF2 pypdf2_text ;;
  print (nl ++ u "尝试使用 PDFMiner...") ;;
  pdfminer_text <- extract_with_pdfminer pdf_path ;;
  results <- record_result results PDFMiner pdfminer_text ;;
  print (nl ++ u "尝试使用 PyMuPDF...") ;;
  pymupdf_text <- extract_with_pymupdf pdf_path ;;
  results <- record_result results PyMuPDF pymupdf_text ;;
  ret results.

(** Line 107. *)
Definition report_header (pdf_path : str) : str :=
  u "# PDF文本提取结果" ++ nl ++ nl
    ++ u "文件: " ++ pdf_path ++ nl
    ++ u "提取时间: " ++ datetime_now w ++ nl ++ nl.

(** Lines 110-118: [(best_text, method)]. *)
Definition select_best (results : dict) : M (str * str) :=
  if dict_mem (u "PyMuPDF") results then
    best_text <- getitem results PyMuPDF ;;
    ret (best_text, u "PyMuPDF")
  else if dict_mem (u "PDFMiner") results then
    best_text <- getitem results PDFMiner ;;
    ret (best_text, u "PDFMiner")
  else
    best_text <- getitem results PyPDF2 ;;
    ret (best_text, u "PyPDF2").

(** Line 120. *)
Definition main_section (method best_text : str) : str :=
  u "## 主要内容 (使用 " ++ method ++ u ")" ++ nl ++ nl
    ++ best_text ++ nl ++ nl.

(** Line 127. *)
Definition reference_section (method_name text : str) : str :=
  u "### " ++ method_name ++ nl ++ nl ++ text ++ nl ++ nl.

(** Lines 125-127: the loop over [results.items()]. *)
Fixpoint reference_loop (items : dict) (method combined_text : str) : str :=
  match items with
  | [] => combined_text
  | (method_name, text) :: r =>
      if negb (str_eqb method_name method) then
        reference_loop r method
          (combined_text ++ reference_section method_name text)
      else reference_loop r method combined_text
  end.

(** Lines 123-127. *)
Definition add_references (results : dict) (method combined_text : str)
  : str :=
  if (1 <? length results)%nat then
    let combined_text :=
      combined_text ++ (u "## 其他方法提取结果（参考）" ++ nl ++ nl) in
    reference_loop results method combined_text
  else combined_text.

(** Lines 130-136. *)
Definition save_report (output_path : option str) (combined_text : str)
  : M unit :=
  if truthy output_path then
    match output_path with
    | Some path =>
        try_except
          (emit (WriteFile path combined_text) ;;
           lib (open_write w path combined_text) ;;
           print (nl ++ u "提取结果已保存到: " ++ path))
          (fun e => print (u "保存文件失败: " ++ exn_str e))
    | None => ret tt
    end
  else ret tt.

Definition extract_pdf_text (pdf_path : str) (output_path : option str)
  : M (option str) :=
  if negb (os_path_exists w pdf_path) then
    print (u "错误: PDF文件不存在 - " ++ pdf_path) ;;
    ret None
  else
    print (u "开始提取PDF文件: " ++ pdf_path) ;;
    results <- collect_results pdf_path ;;
    if negb (truthy_dict results) then
      print (u "所有方法都无法提取文本内容") ;;
      ret None
    else
      let combined_text := report_header pdf_path in
      ' (best_text, method) <- select_best results ;;
      let combined_text := combined_text ++ main_section method best_text in
      let combined_text := add_references results method combined_text in
      save_report output_path combined_text ;;
      ret (Some combined_text).

End Script.

Arguments u : simpl never.
Arguments nl : simpl never.
Arguments str_of_nat : simpl never.
Arguments strip : simpl never.
Arguments page_marker : simpl never.
Arguments backend_name : simpl never.
Arguments str_eqb : simpl never.

(* ===================================================================== *)
(** ** What the script computes, as functions of the environment *)
(* ===================================================================== *)

(** A string has text when some code point of it is not whitespace. *)
Definition has_text (s : str) : bool := negb (forallb isspace s).

(** What either page loop computes: pages are visited in order, a page
    with text appends its marker and text, a blank page appends nothing,
    and the first page whose extraction raises ends the loop. *)
Fixpoint page_loop (b : backend) (page_num : nat)
    (pages : list (outcome str)) (text : str) : outcome str :=
  match pages with
  | [] => Return text
  | Return page_text :: r =>
      page_loop b (S page_num) r
        (if has_text page_text
         then (text ++ page_marker page_num b) ++ (page_text ++ nl)
         else text)
  | Raise e :: _ => Raise e
  end.

(** The section a page with text contributes. *)
Definition page_section (b : backend) (item : nat * str) : str :=
  page_marker (fst item) b ++ (snd item ++ nl).

(** The output for a document all of whose pages could be read: the
    sections of the pages that have text, in page order, each under the
    page's own number (counted from [start]). *)
Definition paged_text (b : backend) (start : nat) (pages : list str) : str :=
  concat (map (page_section b)
            (filter (fun item => has_text (snd item))
                    (combine (seq start (length pages)) pages))).

Definition raises {A} (o : outcome A) : bool :=
  match o with Return _ => false | Raise _ => true end.

Definition text_or_none (o : outcome str) : option str :=
  match o with Return text => Some text | Raise _ => None end.

Definition pypdf2_result (w : world) (pdf_path : str) : option str :=
  match PdfReader_pages w pdf_path with
  | Return pages => text_or_none (page_loop PyPDF2 1 pages [])
  | Raise _ => None
  end.

Definition pdfminer_block (text : str) : str :=
  nl ++ u "=== PDFMiner提取结果 ===" ++ nl ++ text ++ nl.

Definition pdfminer_result (w : world) (pdf_path : str) : option str :=
  match pdfminer_extract_text w pdf_path with
  | Return text => if has_text text then Some (pdfminer_block text) else None
  | Raise _ => None
  end.

Definition pymupdf_result (w : world) (pdf_path : str) : option str :=
  match fitz_open w pdf_path with
  | Return doc =>
      match page_loop PyMuPDF 1 doc [], fitz_close w pdf_path with
      | Return text, Return _ => Some text
      | _, _ => None
      end
  | Raise _ => None
  end.

(** The extractor calls and the attempted file writes recorded in a
    trace. *)
Definition invocations (t : list event) : list (backend * str) :=
  flat_map (fun ev => match ev with Invoke b p => [(b, p)] | _ => [] end) t.

Definition writes (t : list event) : list (str * str) :=
  flat_map (fun ev => match ev with WriteFile p x => [(p, x)] | _ => [] end) t.

(** One run of an extractor: its value, and what its trace shows. *)
Record extractor_run (b : backend) (pdf_path : str) (result : option str)
    (m : M (option str)) : Prop := {
  run_value : value m = Return result;
  run_invocations : invocations (trace m) = [(b, pdf_path)];
  run_writes : writes (trace m) = []
}.

(** The extractor of a backend. *)
Definition extract_with (w : world) (b : backend) : str -> M (option str) :=
  match b with
  | PyPDF2 => extract_with_pypdf2 w
  | PDFMiner => extract_with_pdfminer w
  | PyMuPDF => extract_with_pymupdf w
  end.

Definition extractor_result (w : world) (b : backend) : str -> option str :=
  match b with
  | PyPDF2 => pypdf2_result w
  | PDFMiner => pdfminer_result w
  | PyMuPDF => pymupdf_result w
  end.

(** What [record_result] leaves in the dict. *)
Definition store (results : dict) (b : backend) (text : option str) : dict :=
  match text with
  | Some t => if truthy_str t then dict_set results (backend_name b) t
              else results
  | None => results
  end.

(** The dict after the three extractors have run. *)
Definition collected (w : world) (pdf_path : str) : dict :=
  store (store (store [] PyPDF2 (pypdf2_result w pdf_path))
               PDFMiner (pdfminer_result w pdf_path))
        PyMuPDF (pymupdf_result w pdf_path).

(* ===================================================================== *)
(** ** The priority order and the parts of a report *)
(* ===================================================================== *)

(** The fixed priority order, best first. *)
Definition priority : list backend := [PyMuPDF; PDFMiner; PyPDF2].

(** The first backend of the priority order that is a key of the dict. *)
Definition primary_by_priority (results : dict) : option backend :=
  find (fun b => dict_mem (backend_name b) results) priority.

(** Every key is one of the three identifiers. *)
Definition keys_within (results : dict) : Prop :=
  forall k, In k (dict_keys results) -> exists b, k = backend_name b.

(** The reference part of a report: everything [add_references] appends. *)
Definition references (results : dict) (method : str) : str :=
  add_references results method [].

(** The report for a given dict and choice of main content. *)
Definition report (w : world) (pdf_path : str) (results : dict)
    (method best_text : str) : str :=
  report_header w pdf_path ++ main_section method best_text
    ++ references results method.

Definition all_three (pdf_path : str) : list (backend * str) :=
  [(PyPDF2, pdf_path); (PDFMiner, pdf_path); (PyMuPDF, pdf_path)].

(* ===================================================================== *)
(** ** Sample environments *)
(* ===================================================================== *)

(** The paths of [main]. *)
Definition main_pdf_path : str := u "REF/淘贝课堂演示需求.pdf".
Definition main_output_path : str := u "淘贝课堂演示需求_提取内容.md".

Definition a_world (present : bool)
    (pypdf2 : outcome (list (outcome str))) (pdfminer : outcome str)
    (fitz : outcome (list (outcome str))) (close write : outcome unit)
  : world :=
  {| os_path_exists := fun _ => present;
     PdfReader_pages := fun _ => pypdf2;
     pdfminer_extract_text := fun _ => pdfminer;
     fitz_open := fun _ => fitz;
     fitz_close := fun _ => close;
     datetime_now := u "2024-05-01 10:00:00.000000";
     open_write := fun _ _ => write |}.

(** A three-page document whose second page is blank. *)
Definition three_pages : list str := [u "Intro"; u " " ++ nl; u "End"].

(** All three libraries read the document. *)
Definition healthy : world :=
  a_world true (Return (map (@Return str) three_pages))
    (Return (u "Intro" ++ nl ++ u "End"))
    (Return (map (@Return str) three_pages)) (Return tt) (Return tt).

(** PyPDF2 is not installed. *)
Definition no_pypdf2 : world :=
  a_world true (Raise (Exception (u "No module named 'PyPDF2'")))
    (Return (u "Intro" ++ nl ++ u "End"))
    (Return (map (@Return str) three_pages)) (Return tt) (Return tt).

(** Only pdfminer reads the document. *)
Definition only_pdfminer : world :=
  a_world true (Raise (Exception (u "No module named 'PyPDF2'")))
    (Return (u "Intro" ++ nl ++ u "End"))
    (Raise (Exception (u "No module named 'fitz'"))) (Return tt) (Return tt).

(** No library can read the document. *)
Definition all_broken : world :=
  a_world true (Raise (Exception (u "EOF marker not found")))
    (Raise (Exception (u "No /Root object")))
    (Raise (Exception (u "cannot open broken document")))
    (Return tt) (Return tt).

(** The input file is missing. *)
Definition missing_file : world :=
  a_world false (Return (map (@Return str) three_pages))
    (Return (u "Intro" ++ nl ++ u "End"))
    (Return (map (@Return str) three_pages)) (Return tt) (Return tt).

(** A scanned document: its single page carries no text layer. *)
Definition scanned : world :=
  a_world true (Return [Return (u " " ++ nl)]) (Return (u " " ++ nl))
    (Return [Return []]) (Return tt) (Return tt).

(** The same environment with another behaviour of the output file. *)
Definition with_open_write (w : world) (write : str -> str -> outcome unit)
  : world :=
  {| os_path_exists := os_path_exists w;
     PdfReader_pages := PdfReader_pages w;
     pdfminer_extract_text := pdfminer_extract_text w;
     fitz_open := fitz_open w;
     fitz_close := fitz_close w;
     datetime_now := datetime_now w;
     open_write := write |}.

(** Some library call of the backend's extractor raises. *)
Definition backend_raises (w : world) (b : backend) (pdf_path : str) : bool :=
  match b with
  | PyPDF2 =>
      match PdfReader_pages w pdf_path with
      | Return pages => existsb raises pages
      | Raise _ => true
      end
  | PDFMiner => raises (pdfminer_extract_text w pdf_path)
  | PyMuPDF =>
      match fitz_open w pdf_path with
      | Return doc => existsb raises doc || raises (fitz_close w pdf_path)
      | Raise _ => true
      end
  end.

(** The contract of an extractor as the specification words it: [None], or
    a non-empty text made of one labelled section per page with text. *)
Definition contract_as_stated (b : backend) (pages : list str)
    (r : outcome (option str)) : Prop :=
  r = Return None
  \/ exists text,
       r = Return (Some text) /\ text <> [] /\ text = paged_text b 1 pages.

(* ===================================================================== *)
(** ** The entry point *)
(* ===================================================================== *)

(** [main], lines 140-160. *)
Definition main (w : world) : M unit :=
  let pdf_path := main_pdf_path in
  let output_path := main_output_path in
  if negb (os_path_exists w pdf_path) then
    print (u "错误: 找不到PDF文件 - " ++ pdf_path) ;;
    print (u "请确认文件路径是否正确") ;;
    ret tt
  else
    result <- extract_pdf_text w pdf_path (Some output_path) ;;
    if truthy result then
      match result with
      | Some text =>
          print (nl ++ u "=== 提取完成 ===") ;;
          print (u "文本长度: " ++ str_of_nat (length text) ++ u " 字符") ;;
          print (u "输出文件: " ++ output_path)
      | None => ret tt
      end
    else print (nl ++ u "=== 提取失败 ===").

(* ===================================================================== *)
(** ** Further functions used to state properties *)
(* ===================================================================== *)

(** The dict entry a backend contributes: one entry when its extractor
    returned a non-empty string, none otherwise. *)
Definition entry (b : backend) (r : option str) : dict :=
  match r with
  | Some t => if truthy_str t then [(backend_name b, t)] else []
  | None => []
  end.

(** The exception of the first page whose extraction raises. *)
Fixpoint first_raise (pages : list (outcome str)) : option exn :=
  match pages with
  | [] => None
  | Return _ :: r => first_raise r
  | Raise e :: _ => Some e
  end.

(** The first exception a backend's library calls raise, in the order the
    extractor makes them. *)
Definition backend_exception (w : world) (b : backend) (pdf_path : str)
  : option exn :=
  match b with
  | PyPDF2 =>
      match PdfReader_pages w pdf_path with
      | Return pages => first_raise pages
      | Raise e => Some e
      end
  | PDFMiner =>
      match pdfminer_extract_text w pdf_path with
      | Return _ => None
      | Raise e => Some e
      end
  | PyMuPDF =>
      match fitz_open w pdf_path with
      | Return doc =>
          match first_raise doc, fitz_close w pdf_path with
          | Some e, _ => Some e
          | None, Raise e => Some e
          | None, Return _ => None
          end
      | Raise e => Some e
      end
  end.

(** The page-count line of the two page-iterating extractors, printed once
    the document is open. *)
Definition count_line (w : world) (b : backend) (pdf_path : str)
  : list event :=
  let line (pages : list (outcome str)) :=
    Print (backend_name b ++ u ": 检测到 " ++ str_of_nat (length pages)
             ++ u " 页") in
  match b with
  | PyPDF2 =>
      match PdfReader_pages w pdf_path with
      | Return pages => [line pages]
      | Raise _ => []
      end
  | PDFMiner => []
  | PyMuPDF =>
      match fitz_open w pdf_path with
      | Return doc => [line doc]
      | Raise _ => []
      end
  end.

(** The diagnostic an extractor prints when it catches [e]. *)
Definition failure_line (b : backend) (e : exn) : event :=
  Print (backend_name b ++ u " 提取失败: " ++ exn_str e).

(** The line that announces an attempt, and the line that reports its
    success. *)
Definition attempt_line (b : backend) : event :=
  Print (nl ++ u "尝试使用 " ++ backend_name b ++ u "...").

Definition success_line (b : backend) : event :=
  Print (backend_name b ++ u " 提取成功").

(** The heading of the reference part. *)
Definition reference_heading : str :=
  u "## 其他方法提取结果（参考）" ++ nl ++ nl.

(** The summary [main] prints after the orchestrator has returned. *)
Definition summary (result : option str) : list event :=
  match result with
  | Some ((_ :: _) as text) =>
      [Print (nl ++ u "=== 提取完成 ===");
       Print (u "文本长度: " ++ str_of_nat (length text) ++ u " 字符");
       Print (u "输出文件: " ++ main_output_path)]
  | _ => [Print (nl ++ u "=== 提取失败 ===")]
  end.

(** Only PyPDF2 reads the document. *)
Definition only_pypdf2 : world :=
  a_world true (Return (map (@Return str) three_pages))
    (Raise (Exception (u "No module named 'pdfminer'")))
    (Raise (Exception (u "No module named 'fitz'"))) (Return tt) (Return tt).

(** PyMuPDF is not installed; the other two read the document. *)
Definition no_pymupdf : world :=
  a_world true (Return (map (@Return str) three_pages))
    (Return (u "Intro" ++ nl ++ u "End"))
    (Raise (Exception (u "No module named 'fitz'"))) (Return tt) (Return tt).

(* ===================================================================== *)
(** ** The texts of a report, written out *)
(* ===================================================================== *)

(** The texts below are written from the output format, independently of
    the functions of the script; the properties state what the script
    returns in their terms. *)

(** The marker line of page [page_num] in the output of backend [name]. *)
Definition expected_marker (page_num : nat) (name : str) : str :=
  nl ++ u "=== 第 " ++ str_of_nat page_num ++ u " 页 (" ++ name ++ u ") ==="
     ++ nl.

(** The output for the pages of a document, numbered from [page_num]: a
    page that is empty or all whitespace gives nothing, any other page
    its marker, its text and a newline. *)
Fixpoint expected_sections (name : str) (page_num : nat) (pages : list str)
  : str :=
  match pages with
  | [] => []
  | page_text :: rest =>
      (if forallb isspace page_text then []
       else expected_marker page_num name ++ page_text ++ nl)
        ++ expected_sections name (S page_num) rest
  end.

(** The head of a report: title, source path, extraction time. *)
Definition expected_header (pdf_path now : str) : str :=
  u "# PDF文本提取结果" ++ nl ++ nl
    ++ u "文件: " ++ pdf_path ++ nl
    ++ u "提取时间: " ++ now ++ nl ++ nl.

(** The main section: its heading names the backend, its body is the
    backend's text. *)
Definition expected_main_section (name body : str) : str :=
  u "## 主要内容 (使用 " ++ name ++ u ")" ++ nl ++ nl ++ body ++ nl ++ nl.

(** One reference section. *)
Definition expected_reference_section (name body : str) : str :=
  u "### " ++ name ++ nl ++ nl ++ body ++ nl ++ nl.

(** The reference sections of the given entries, in their order. *)
Definition expected_reference_sections (entries : dict) : str :=
  concat (map (fun kv => expected_reference_section (fst kv) (snd kv))
            entries).

(** The reference part of a report: nothing when at most one backend
    succeeded, otherwise the heading and a section for every entry of the
    dict but the primary one, in the order of the dict. *)
Definition expected_references (results : dict) (primary : str) : str :=
  if (length results <=? 1)%nat then []
  else reference_heading
         ++ expected_reference_sections
              (filter (fun kv => negb (str_eqb (fst kv) primary)) results).

(* ===================================================================== *)
(** ** Raised objects that the handlers do not catch *)
(* ===================================================================== *)

(** The embedding above takes every raised object to be an instance of
    [Exception], which is what every handler of the script names, and
    every [print] to succeed.  This module embeds the same functions
    without the two assumptions: a call can also raise an object that
    derives from [BaseException] only (KeyboardInterrupt, SystemExit,
    GeneratorExit), which [except Exception] lets through, and writing a
    line to the console can raise (UnicodeEncodeError on a console whose
    encoding lacks a character, OSError on a closed stream). *)
Module Signals.

Inductive result (A : Type) : Type :=
| Returns (a : A)
| Raises (e : exn)          (* an instance of Exception *)
| Escapes (signal : str).   (* not an instance of Exception: its class name *)
Arguments Raises {A} e.
Arguments Escapes {A} signal.

Definition M (A : Type) : Type := (result A * list event)%type.

Declare Scope signals_scope.

Definition ret {A} (a : A) : M A := (Returns a, []).

Definition bind {A B} (m : M A) (k : A -> M B) : M B :=
  match m with
  | (Returns a, t) => let (r, t') := k a in (r, t ++ t')
  | (Raises e, t) => (Raises e, t)
  | (Escapes s, t) => (Escapes s, t)
  end.

Definition emit (ev : event) : M unit := (Returns tt, [ev]).

Definition lib {A} (o : result A) : M A := (o, []).

(** [try: body  except Exception as e: handler e]: the handler runs for an
    instance of Exception only, and what the handler itself raises is not
    caught. *)
Definition try_except {A} (body : M A) (handler : exn -> M A) : M A :=
  match body with
  | (Raises e, t) => let (r, t') := handler e in (r, t ++ t')
  | _ => body
  end.

Definition value {A} (m : M A) : result A := fst m.
Definition trace {A} (m : M A) : list event := snd m.

Notation "x <- c ;; k" := (bind c (fun x => k))
  (at level 61, c at next level, right associativity) : signals_scope.
Notation "' p <- c ;; k" := (bind c (fun x => let 'p := x in k))
  (at level 61, p pattern, c at next level, right associativity)
  : signals_scope.
Notation "c ;; k" := (bind c (fun _ => k))
  (at level 61, right associativity) : signals_scope.
Local Open Scope signals_scope.

Fixpoint for_each {A S : Type} (xs : list A) (body : A -> S -> M S) (s : S)
  : M S :=
  match xs with
  | [] => ret s
  | x :: r => s' <- body x s ;; for_each r body s'
  end.

Record world : Type := {
  os_path_exists : str -> bool;
  PdfReader_pages : str -> result (list (result str));
  pdfminer_extract_text : str -> result str;
  fitz_open : str -> result (list (result str));
  fitz_close : str -> result unit;
  datetime_now : str;
  open_write : str -> str -> result unit;
  (** writing one line to the console *)
  stdout_write : str -> result unit
}.

Section Script.

Variable w : world.

(** [print(line)]: the line appears on the console unless writing it
    raises. *)
Definition print (line : str) : M unit :=
  lib (stdout_write w line) ;;
  emit (Print line).

Definition pypdf2_page (item : nat * result str) (text : str) : M str :=
  let '(page_num, page) := item in
  page_text <- lib page ;;
  if truthy_str (strip page_text) then
    let text := text ++ page_marker page_num PyPDF2 in
    let text := text ++ (page_text ++ nl) in
    ret text
  else ret text.

Definition extract_with_pypdf2 (pdf_path : str) : M (option str) :=
  emit (Invoke PyPDF2 pdf_path) ;;
  try_except
    (pages <- lib (PdfReader_pages w pdf_path) ;;
     let text := [] in
     print (u "PyPDF2: 检测到 " ++ str_of_nat (length pages) ++ u " 页") ;;
     text <- for_each (enumerate 1 pages) pypdf2_page text ;;
     ret (Some text))
    (fun e =>
       print (u "PyPDF2 提取失败: " ++ exn_str e) ;;
       ret None).

Definition extract_with_pdfminer (pdf_path : str) : M (option str) :=
  emit (Invoke PDFMiner pdf_path) ;;
  try_except
    (text <- lib (pdfminer_extract_text w pdf_path) ;;
     if truthy_str (strip text) then
       ret (Some (nl ++ u "=== PDFMiner提取结果 ===" ++ nl ++ text ++ nl))
     else ret None)
    (fun e =>
       print (u "PDFMiner 提取失败: " ++ exn_str e) ;;
       ret None).

Definition fitz_page_text (doc : list (result str)) (page_num : nat)
  : M str :=
  match nth_error doc page_num with
  | Some page => lib page
  | None => lib (Raises (Exception (u "page not in document")))
  end.

Definition pymupdf_page (doc : list (result str)) (page_num : nat)
    (text : str) : M str :=
  page_text <- fitz_page_text doc page_num ;;
  if truthy_str (strip page_text) then
    let text := text ++ page_marker (page_num + 1) PyMuPDF in
    let text := text ++ (page_text ++ nl) in
    ret text
  else ret text.

Definition extract_with_pymupdf (pdf_path : str) : M (option str) :=
  emit (Invoke PyMuPDF pdf_path) ;;
  try_except
    (doc <- lib (fitz_open w pdf_path) ;;
     let text := [] in
     print (u "PyMuPDF: 检测到 " ++ str_of_nat (length doc) ++ u " 页") ;;
     text <- for_each (range (length doc)) (pymupdf_page doc) text ;;
     lib (fitz_close w pdf_path) ;;
     ret (Some text))
    (fun e =>
       print (u "PyMuPDF 提取失败: " ++ exn_str e) ;;
       ret None).

Definition record_result (results : dict) (b : backend)
    (text : option str) : M dict :=
  if truthy text then
    match text with
    | Some t =>
        let results := dict_set results (backend_name b) t in
        print (backend_name b ++ u " 提取成功") ;;
        ret results
    | None => ret results
    end
  else ret results.

Definition collect_results (pdf_path : str) : M dict :=
  let results : dict := [] in
  print (nl ++ u "尝试使用 PyPDF2...") ;;
  pypdf2_text <- extract_with_pypdf2 pdf_path ;;
  results <- record_result results PyPDF2 pypdf2_text ;;
  print (nl ++ u "尝试使用 PDFMiner...") ;;
  pdfminer_text <- extract_with_pdfminer pdf_path ;;
  results <- record_result results PDFMiner pdfminer_text ;;
  print (nl ++ u "尝试使用 PyMuPDF...") ;;
  pymupdf_text <- extract_with_pymupdf pdf_path ;;
  results <- record_result results PyMuPDF pymupdf_text ;;
  ret results.

Definition report_header (pdf_path : str) : str :=
  u "# PDF文本提取结果" ++ nl ++ nl
    ++ u "文件: " ++ pdf_path ++ nl
    ++ u "提取时间: " ++ datetime_now w ++ nl ++ nl.

Definition getitem (d : dict) (key : backend) : M str :=
  match dict_get d (backend_name key) with
  | Some v => ret v
  | None => lib (Raises (KeyError key))
  end.

Definition select_best (results : dict) : M (str * str) :=
  if dict_mem (u "PyMuPDF") results then
    best_text <- getitem results PyMuPDF ;;
    ret (best_text, u "PyMuPDF")
  else if dict_mem (u "PDFMiner") results then
    best_text <- getitem results PDFMiner ;;
    ret (best_text, u "PDFMiner")
  else
    best_text <- getitem results PyPDF2 ;;
    ret (best_text, u "PyPDF2").

Definition save_report (output_path : option str) (combined_text : str)
  : M unit :=
  if truthy output_path then
    match output_path with
    | Some path =>
        try_except
          (emit (WriteFile path combined_text) ;;
           lib (open_write w path combined_text) ;;
           print (nl ++ u "提取结果已保存到: " ++ path))
          (fun e => print (u "保存文件失败: " ++ exn_str e))
    | None => ret tt
    end
  else ret tt.

Definition extract_pdf_text (pdf_path : str) (output_path : option str)
  : M (option str) :=
  if negb (os_path_exists w pdf_path) then
    print (u "错误: PDF文件不存在 - " ++ pdf_path) ;;
    ret None
  else
    print (u "开始提取PDF文件: " ++ pdf_path) ;;
    results <- collect_results pdf_path ;;
    if negb (truthy_dict results) then
      print (u "所有方法都无法提取文本内容") ;;
      ret None
    else
      let combined_text := report_header pdf_path in
      ' (best_text, method) <- select_best results ;;
      let combined_text := combined_text ++ main_section method best_text in
      let combined_text := add_references results method combined_text in
      save_report output_path combined_text ;;
      ret (Some combined_text).

End Script.

Definition extract_with (w : world) (b : backend) : str -> M (option str) :=
  match b with
  | PyPDF2 => extract_with_pypdf2 w
  | PDFMiner => extract_with_pdfminer w
  | PyMuPDF => extract_with_pymupdf w
  end.

End Signals.







(* ===================================================================== *)
(** ** Checks of the string functions *)
(* ===================================================================== *)

Example u_title : u "## 主要内容" = [35; 35; 32; 20027; 35201; 20869; 23481]%N.
Proof. reflexivity. Qed.

Example str_of_nat_12 : str_of_nat 12 = u "12".
Proof. reflexivity. Qed.

Example str_of_nat_0 : str_of_nat 0 = u "0".
Proof. reflexivity. Qed.

Example strip_demo : strip (u "  a b " ++ nl) = u "a b".
Proof. reflexivity. Qed.

Example strip_blank : strip ([32; 12288; 9] ++ nl)%N = [].
Proof. reflexivity. Qed.

(* ===================================================================== *)
(** ** Laws of the effect monad *)
(* ===================================================================== *)

Lemma value_bind {A B} (m : M A) (k : A -> M B) :
  value (bind m k)
  = match value m with Return a => value (k a) | Raise e => Raise e end.
Proof.
  destruct m as [[a|e] t]; simpl; [destruct (k a)|]; reflexivity.
Qed.

Lemma trace_bind {A B} (m : M A) (k : A -> M B) :
  trace (bind m k)
  = match value m with
    | Return a => trace m ++ trace (k a)
    | Raise _ => trace m
    end.
Proof.
  destruct m as [[a|e] t]; simpl; [destruct (k a)|]; reflexivity.
Qed.

Lemma surjective_run {A} (m : M A) : m = (value m, trace m).
Proof. destruct m; reflexivity. Qed.

(* ===================================================================== *)
(** ** Whitespace *)
(* ===================================================================== *)

Lemma lstrip_blank (s : str) : forallb isspace s = true -> lstrip s = [].
Proof.
  induction s as [|c r IH]; simpl; [reflexivity|].
  destruct (isspace c); simpl; [exact IH | discriminate].
Qed.

Lemma forallb_lstrip (s : str) :
  forallb isspace (lstrip s) = forallb isspace s.
Proof.
  induction s as [|c r IH]; simpl; [reflexivity|].
  destruct (isspace c) eqn:E; simpl; [exact IH | now rewrite E].
Qed.

Lemma forallb_rev {A} (f : A -> bool) (l : list A) :
  forallb f (rev l) = forallb f l.
Proof.
  induction l as [|a l IH]; simpl; [reflexivity|].
  rewrite forallb_app, IH. simpl. rewrite andb_true_r. apply andb_comm.
Qed.

(** [if s.strip():] tests exactly whether [s] has text. *)
Lemma truthy_strip (s : str) : truthy_str (strip s) = has_text s.
Proof.
  unfold strip, rstrip, has_text.
  destruct (forallb isspace s) eqn:E; simpl.
  - now rewrite (lstrip_blank s E).
  - assert (H : forallb isspace (rev (lstrip (rev (lstrip s)))) = false).
    { now rewrite forallb_rev, forallb_lstrip, forallb_rev, forallb_lstrip. }
    destruct (rev (lstrip (rev (lstrip s)))); [discriminate | reflexivity].
Qed.

Lemma truthy_str_true (s : str) : truthy_str s = true <-> s <> [].
Proof. destruct s; simpl; split; congruence. Qed.

Lemma str_eqb_eq (s t : str) : str_eqb s t = true <-> s = t.
Proof.
  unfold str_eqb. destruct (list_eq_dec N.eq_dec s t); split; congruence.
Qed.

Lemma str_eqb_refl (s : str) : str_eqb s s = true.
Proof. now apply str_eqb_eq. Qed.

(* ===================================================================== *)
(** ** The page loops *)
(* ===================================================================== *)

Lemma pypdf2_loop (pages : list (outcome str)) : forall n text,
  for_each (combine (seq n (length pages)) pages) pypdf2_page text
  = (page_loop PyPDF2 n pages text, []).
Proof.
  induction pages as [|[page_text|e] r IH]; intros n text; simpl;
    try reflexivity.
  rewrite truthy_strip.
  destruct (has_text page_text); simpl; rewrite IH; reflexivity.
Qed.

Lemma pymupdf_loop (rest : list (outcome str)) : forall pre text,
  for_each (seq (length pre) (length rest)) (pymupdf_page (pre ++ rest)) text
  = (page_loop PyMuPDF (length pre + 1) rest text, []).
Proof.
  induction rest as [|page r IH]; intros pre text; simpl; [reflexivity|].
  unfold pymupdf_page at 1, fitz_page_text.
  rewrite nth_error_app2, Nat.sub_diag by lia. simpl.
  assert (Hnext : forall text',
    for_each (seq (S (length pre)) (length r))
      (pymupdf_page (pre ++ page :: r)) text'
    = (page_loop PyMuPDF (S (length pre + 1)) r text', [])).
  { intros text'. specialize (IH (pre ++ [page]) text').
    rewrite <- app_assoc, length_app in IH. simpl in IH.
    rewrite Nat.add_1_r in IH. rewrite IH.
    now rewrite !Nat.add_1_r. }
  destruct page as [page_text|e]; simpl; [|reflexivity].
  rewrite truthy_strip.
  destruct (has_text page_text); simpl; rewrite Hnext; reflexivity.
Qed.

Lemma page_loop_all_return (b : backend) (pages : list str) : forall n text,
  page_loop b n (map (@Return str) pages) text
  = Return (text ++ paged_text b n pages).
Proof.
  unfold paged_text.
  induction pages as [|page_text r IH]; intros n text; cbn.
  - now rewrite app_nil_r.
  - rewrite IH. destruct (has_text page_text); cbn; [|reflexivity].
    unfold page_section. cbn. now rewrite <- !app_assoc.
Qed.

Lemma page_loop_raises (b : backend) (pages : list (outcome str)) :
  existsb raises pages = true ->
  forall n text, raises (page_loop b n pages text) = true.
Proof.
  induction pages as [|[page_text|e] r IH]; simpl; intros H n text;
    [discriminate | now apply IH | reflexivity].
Qed.

(* ===================================================================== *)
(** ** The extractors *)
(* ===================================================================== *)

Lemma invocations_app (t t' : list event) :
  invocations (t ++ t') = invocations t ++ invocations t'.
Proof. apply flat_map_app. Qed.

Lemma writes_app (t t' : list event) : writes (t ++ t') = writes t ++ writes t'.
Proof. apply flat_map_app. Qed.

Lemma extract_with_pypdf2_run (w : world) (pdf_path : str) :
  extractor_run PyPDF2 pdf_path (pypdf2_result w pdf_path)
    (extract_with_pypdf2 w pdf_path).
Proof.
  unfold extract_with_pypdf2, pypdf2_result, enumerate.
  destruct (PdfReader_pages w pdf_path) as [pages|e]; cbn.
  - rewrite pypdf2_loop.
    destruct (page_loop PyPDF2 1 pages []); cbn; split; reflexivity.
  - split; reflexivity.
Qed.

Lemma extract_with_pdfminer_run (w : world) (pdf_path : str) :
  extractor_run PDFMiner pdf_path (pdfminer_result w pdf_path)
    (extract_with_pdfminer w pdf_path).
Proof.
  unfold extract_with_pdfminer, pdfminer_result, pdfminer_block.
  destruct (pdfminer_extract_text w pdf_path) as [text|e]; cbn.
  - rewrite truthy_strip.
    destruct (has_text text); cbn; split; reflexivity.
  - split; reflexivity.
Qed.

Lemma extract_with_pymupdf_run (w : world) (pdf_path : str) :
  extractor_run PyMuPDF pdf_path (pymupdf_result w pdf_path)
    (extract_with_pymupdf w pdf_path).
Proof.
  unfold extract_with_pymupdf, pymupdf_result, range.
  destruct (fitz_open w pdf_path) as [doc|e]; cbn.
  - rewrite (pymupdf_loop doc []). cbn.
    destruct (page_loop PyMuPDF 1 doc []); cbn.
    + destruct (fitz_close w pdf_path); cbn; split; reflexivity.
    + split; reflexivity.
  - split; reflexivity.
Qed.

Lemma extract_with_run (w : world) (b : backend) (pdf_path : str) :
  extractor_run b pdf_path (extractor_result w b pdf_path)
    (extract_with w b pdf_path).
Proof.
  destruct b; [apply extract_with_pypdf2_run | apply extract_with_pdfminer_run
              | apply extract_with_pymupdf_run].
Qed.

(* ===================================================================== *)
(** ** The dict *)
(* ===================================================================== *)

Lemma dict_mem_In (key : str) (d : dict) :
  dict_mem key d = true <-> In key (dict_keys d).
Proof.
  induction d as [|[k v] r IH]; simpl; [split; [discriminate | tauto]|].
  rewrite orb_true_iff, str_eqb_eq, IH. tauto.
Qed.

Lemma dict_get_mem (key : str) (d : dict) :
  dict_mem key d = true -> exists v, dict_get d key = Some v.
Proof.
  induction d as [|[k v] r IH]; simpl; [discriminate|].
  destruct (str_eqb k key); simpl; [now exists v | exact IH].
Qed.

Lemma dict_get_not_mem (key : str) (d : dict) :
  dict_mem key d = false -> dict_get d key = None.
Proof.
  induction d as [|[k v] r IH]; simpl; [reflexivity|].
  destruct (str_eqb k key); simpl; [discriminate | exact IH].
Qed.

Lemma dict_keys_set (d : dict) (key v k : str) :
  In k (dict_keys (dict_set d key v)) <-> k = key \/ In k (dict_keys d).
Proof.
  induction d as [|[k0 v0] r IH]; simpl.
  - intuition congruence.
  - destruct (str_eqb k0 key) eqn:E; simpl.
    + apply str_eqb_eq in E. subst k0. intuition congruence.
    + rewrite IH. tauto.
Qed.

Lemma dict_set_fresh (d : dict) (key v : str) :
  dict_mem key d = false -> dict_set d key v = d ++ [(key, v)].
Proof.
  induction d as [|[k0 v0] r IH]; simpl; [reflexivity|].
  destruct (str_eqb k0 key); simpl; [discriminate|].
  intros H. now rewrite IH.
Qed.

(** The three identifiers are pairwise different strings. *)
Lemma backend_name_inj (b b' : backend) :
  backend_name b = backend_name b' -> b = b'.
Proof. destruct b, b'; intros H; try reflexivity; now vm_compute in H. Qed.

Lemma backend_name_eqb (b b' : backend) :
  b <> b' -> str_eqb (backend_name b) (backend_name b') = false.
Proof.
  intros Hne. destruct (str_eqb _ _) eqn:E; [|reflexivity].
  apply str_eqb_eq, backend_name_inj in E. contradiction.
Qed.

(* ===================================================================== *)
(** ** Collecting the results *)
(* ===================================================================== *)

Lemma record_result_run (results : dict) (b : backend) (text : option str) :
  value (record_result results b text) = Return (store results b text)
  /\ invocations (trace (record_result results b text)) = []
  /\ writes (trace (record_result results b text)) = [].
Proof.
  unfold record_result, store.
  destruct text as [[|c t]|]; cbn; repeat split; reflexivity.
Qed.

Lemma value_bind_ret {A B} (m : M A) (k : A -> M B) (a : A) :
  value m = Return a -> value (bind m k) = value (k a).
Proof. intros H. now rewrite value_bind, H. Qed.

Lemma trace_bind_ret {A B} (m : M A) (k : A -> M B) (a : A) :
  value m = Return a -> trace (bind m k) = trace m ++ trace (k a).
Proof. intros H. now rewrite trace_bind, H. Qed.

Lemma collect_results_run (w : world) (pdf_path : str) :
  value (collect_results w pdf_path) = Return (collected w pdf_path)
  /\ invocations (trace (collect_results w pdf_path))
     = [(PyPDF2, pdf_path); (PDFMiner, pdf_path); (PyMuPDF, pdf_path)]
  /\ writes (trace (collect_results w pdf_path)) = [].
Proof.
  destruct (extract_with_pypdf2_run w pdf_path) as [V1 I1 W1].
  destruct (extract_with_pdfminer_run w pdf_path) as [V2 I2 W2].
  destruct (extract_with_pymupdf_run w pdf_path) as [V3 I3 W3].
  unfold collect_results, collected.
  set (r1 := store [] PyPDF2 (pypdf2_result w pdf_path)).
  set (r2 := store r1 PDFMiner (pdfminer_result w pdf_path)).
  destruct (record_result_run [] PyPDF2 (pypdf2_result w pdf_path))
    as (S1 & SI1 & SW1).
  destruct (record_result_run r1 PDFMiner (pdfminer_result w pdf_path))
    as (S2 & SI2 & SW2).
  destruct (record_result_run r2 PyMuPDF (pymupdf_result w pdf_path))
    as (S3 & SI3 & SW3).
  fold r1 in S1. fold r2 in S2.
  repeat split.
  - rewrite (value_bind_ret _ _ (a:=tt)) by reflexivity.
    rewrite (value_bind_ret _ _ V1), (value_bind_ret _ _ S1).
    rewrite (value_bind_ret _ _ (a:=tt)) by reflexivity.
    rewrite (value_bind_ret _ _ V2), (value_bind_ret _ _ S2).
    rewrite (value_bind_ret _ _ (a:=tt)) by reflexivity.
    rewrite (value_bind_ret _ _ V3), (value_bind_ret _ _ S3).
    reflexivity.
  - rewrite (trace_bind_ret _ _ (a:=tt)) by reflexivity.
    rewrite (trace_bind_ret _ _ V1), (trace_bind_ret _ _ S1).
    rewrite (trace_bind_ret _ _ (a:=tt)) by reflexivity.
    rewrite (trace_bind_ret _ _ V2), (trace_bind_ret _ _ S2).
    rewrite (trace_bind_ret _ _ (a:=tt)) by reflexivity.
    rewrite (trace_bind_ret _ _ V3), (trace_bind_ret _ _ S3).
    rewrite !invocations_app, I1, I2, I3, SI1, SI2, SI3. reflexivity.
  - rewrite (trace_bind_ret _ _ (a:=tt)) by reflexivity.
    rewrite (trace_bind_ret _ _ V1), (trace_bind_ret _ _ S1).
    rewrite (trace_bind_ret _ _ (a:=tt)) by reflexivity.
    rewrite (trace_bind_ret _ _ V2), (trace_bind_ret _ _ S2).
    rewrite (trace_bind_ret _ _ (a:=tt)) by reflexivity.
    rewrite (trace_bind_ret _ _ V3), (trace_bind_ret _ _ S3).
    rewrite !writes_app, W1, W2, W3, SW1, SW2, SW3. reflexivity.
Qed.

(* ===================================================================== *)
(** ** Choosing the main content *)
(* ===================================================================== *)

(** The [if]/[elif]/[else] chain against the priority order: it picks the
    first backend of the order that is present, and the only way it can
    fail is the lookup of the [else] branch. *)
Lemma select_best_spec (results : dict) :
  match primary_by_priority results with
  | Some b =>
      exists text,
        dict_get results (backend_name b) = Some text
        /\ select_best results = (Return (text, backend_name b), [])
  | None => select_best results = (Raise (KeyError PyPDF2), [])
  end.
Proof.
  unfold primary_by_priority, priority, select_best, getitem. simpl find.
  change (u "PyMuPDF") with (backend_name PyMuPDF).
  change (u "PDFMiner") with (backend_name PDFMiner).
  change (u "PyPDF2") with (backend_name PyPDF2).
  destruct (dict_mem (backend_name PyMuPDF) results) eqn:E3.
  { destruct (dict_get_mem _ _ E3) as [v Hv]. exists v. now rewrite Hv. }
  destruct (dict_mem (backend_name PDFMiner) results) eqn:E2.
  { destruct (dict_get_mem _ _ E2) as [v Hv]. exists v. now rewrite Hv. }
  destruct (dict_mem (backend_name PyPDF2) results) eqn:E1.
  { destruct (dict_get_mem _ _ E1) as [v Hv]. exists v. now rewrite Hv. }
  now rewrite (dict_get_not_mem _ _ E1).
Qed.

Lemma primary_exists (results : dict) :
  results <> [] -> keys_within results ->
  exists b, primary_by_priority results = Some b.
Proof.
  intros Hne Hk. destruct results as [|[k v] r]; [contradiction|].
  destruct (Hk k) as [b0 ->]; [now left|].
  assert (Hin : dict_mem (backend_name b0) ((backend_name b0, v) :: r) = true).
  { simpl. now rewrite str_eqb_refl. }
  remember ((backend_name b0, v) :: r) as d eqn:Hd. clear Hd Hk Hne.
  unfold primary_by_priority, priority. simpl find.
  destruct (dict_mem (backend_name PyMuPDF) _) eqn:E3;
    [eexists; reflexivity|].
  destruct (dict_mem (backend_name PDFMiner) _) eqn:E2;
    [eexists; reflexivity|].
  destruct (dict_mem (backend_name PyPDF2) _) eqn:E1;
    [eexists; reflexivity|].
  destruct b0; congruence.
Qed.

Lemma store_keys (results : dict) (b : backend) (text : option str) :
  keys_within results -> keys_within (store results b text).
Proof.
  intros Hk k. unfold store.
  destruct text as [t|]; [destruct (truthy_str t)|]; try apply Hk.
  rewrite dict_keys_set. intros [->|Hin]; [now exists b | now apply Hk].
Qed.

Lemma collected_keys_within (w : world) (pdf_path : str) :
  keys_within (collected w pdf_path).
Proof.
  unfold collected. repeat apply store_keys. intros k [].
Qed.

(* ===================================================================== *)
(** ** Rendering and saving the report *)
(* ===================================================================== *)

Lemma reference_loop_app (items : dict) (method : str) :
  forall combined_text,
    reference_loop items method combined_text
    = combined_text ++ reference_loop items method [].
Proof.
  induction items as [|[method_name text] r IH]; intros c; simpl.
  - now rewrite app_nil_r.
  - destruct (negb (str_eqb method_name method)); [|apply IH].
    rewrite (IH (c ++ _)), (IH (reference_section method_name text)).
    now rewrite app_assoc.
Qed.

Lemma add_references_app (results : dict) (method combined_text : str) :
  add_references results method combined_text
  = combined_text ++ references results method.
Proof.
  unfold references, add_references.
  destruct (1 <? length results)%nat; [|now rewrite app_nil_r].
  rewrite reference_loop_app, (reference_loop_app _ _ ([] ++ _)).
  rewrite app_nil_l. now rewrite <- app_assoc.
Qed.

Lemma save_report_run (w : world) (output_path : option str) (text : str) :
  value (save_report w output_path text) = Return tt
  /\ invocations (trace (save_report w output_path text)) = []
  /\ writes (trace (save_report w output_path text))
     = match output_path with
       | Some path => if truthy_str path then [(path, text)] else []
       | None => []
       end.
Proof.
  unfold save_report.
  destruct output_path as [[|c path]|]; cbn; try (repeat split; reflexivity).
  destruct (open_write w (c :: path) text); cbn; repeat split; reflexivity.
Qed.

(* ===================================================================== *)
(** ** The orchestrator *)
(* ===================================================================== *)

Lemma extract_pdf_text_missing (w : world) (pdf_path : str)
    (output_path : option str) :
  os_path_exists w pdf_path = false ->
  extract_pdf_text w pdf_path output_path
  = (Return None, [Print (u "错误: PDF文件不存在 - " ++ pdf_path)]).
Proof. intros H. unfold extract_pdf_text. now rewrite H. Qed.

Lemma extract_pdf_text_nothing (w : world) (pdf_path : str)
    (output_path : option str) :
  os_path_exists w pdf_path = true ->
  collected w pdf_path = [] ->
  value (extract_pdf_text w pdf_path output_path) = Return None
  /\ invocations (trace (extract_pdf_text w pdf_path output_path))
     = all_three pdf_path
  /\ writes (trace (extract_pdf_text w pdf_path output_path)) = [].
Proof.
  intros Hex Hc.
  destruct (collect_results_run w pdf_path) as (V & I & W).
  rewrite Hc in V.
  unfold extract_pdf_text. rewrite Hex. simpl negb. cbv iota.
  repeat split.
  - rewrite (value_bind_ret _ _ (a:=tt)) by reflexivity.
    now rewrite (value_bind_ret _ _ V).
  - rewrite (trace_bind_ret _ _ (a:=tt)) by reflexivity.
    rewrite (trace_bind_ret _ _ V), !invocations_app, I. reflexivity.
  - rewrite (trace_bind_ret _ _ (a:=tt)) by reflexivity.
    rewrite (trace_bind_ret _ _ V), !writes_app, W. reflexivity.
Qed.

Lemma extract_pdf_text_report (w : world) (pdf_path : str)
    (output_path : option str) (method best_text : str) :
  os_path_exists w pdf_path = true ->
  collected w pdf_path <> [] ->
  select_best (collected w pdf_path) = (Return (best_text, method), []) ->
  let text := report w pdf_path (collected w pdf_path) method best_text in
  value (extract_pdf_text w pdf_path output_path) = Return (Some text)
  /\ invocations (trace (extract_pdf_text w pdf_path output_path))
     = all_three pdf_path
  /\ writes (trace (extract_pdf_text w pdf_path output_path))
     = match output_path with
       | Some path => if truthy_str path then [(path, text)] else []
       | None => []
       end.
Proof.
  intros Hex Hne Hsel text.
  destruct (collect_results_run w pdf_path) as (V & I & W).
  assert (Htext : add_references (collected w pdf_path) method
                    (report_header w pdf_path ++ main_section method best_text)
                  = text).
  { unfold text, report. now rewrite add_references_app, <- app_assoc. }
  destruct (save_report_run w output_path text) as (SV & SI & SW).
  unfold extract_pdf_text. rewrite Hex. simpl negb. cbv iota.
  assert (Hrest :
    (if negb (truthy_dict (collected w pdf_path))
     then print (u "所有方法都无法提取文本内容");; ret None
     else
       ' (best_text0, method0) <- select_best (collected w pdf_path);;
       save_report w output_path
         (add_references (collected w pdf_path) method0
            (report_header w pdf_path ++ main_section method0 best_text0));;
       ret (Some
              (add_references (collected w pdf_path) method0
                 (report_header w pdf_path
                    ++ main_section method0 best_text0))))
    = (Return (Some text), trace (save_report w output_path text))).
  { destruct (collected w pdf_path) as [|kv r] eqn:Ec; [contradiction|].
    simpl negb. cbv iota. rewrite Hsel. unfold bind at 1. rewrite Htext.
    rewrite (surjective_run (save_report w output_path text)), SV.
    cbn. now rewrite app_nil_r. }
  repeat split.
  - rewrite (value_bind_ret _ _ (a:=tt)) by reflexivity.
    rewrite (value_bind_ret _ _ V). cbv zeta. now rewrite Hrest.
  - rewrite (trace_bind_ret _ _ (a:=tt)) by reflexivity.
    rewrite (trace_bind_ret _ _ V). cbv zeta. rewrite Hrest.
    rewrite !invocations_app, I. cbn [trace snd].
    now rewrite SI, app_nil_r.
  - rewrite (trace_bind_ret _ _ (a:=tt)) by reflexivity.
    rewrite (trace_bind_ret _ _ V). cbv zeta. rewrite Hrest.
    rewrite !writes_app, W. cbn [trace snd]. now rewrite SW.
Qed.

(* ===================================================================== *)
(** ** Which backends end up in the dict *)
(* ===================================================================== *)

Lemma store_falsy (results : dict) (b : backend) (text : option str) :
  truthy text = false -> store results b text = results.
Proof. destruct text as [[|c t]|]; simpl; congruence. Qed.

Lemma store_truthy (results : dict) (b : backend) (text : option str) :
  truthy text = true ->
  exists t, text = Some t /\ store results b text
                             = dict_set results (backend_name b) t.
Proof.
  destruct text as [[|c t]|]; simpl; try discriminate.
  intros _. now exists (c :: t).
Qed.

Lemma store_mem (results : dict) (b b' : backend) (text : option str) :
  dict_mem (backend_name b) (store results b' text) = true
  <-> (b = b' /\ truthy text = true)
      \/ dict_mem (backend_name b) results = true.
Proof.
  destruct (truthy text) eqn:E.
  - destruct (store_truthy results b' _ E) as (t & -> & ->).
    rewrite !dict_mem_In, dict_keys_set. split.
    + intros [H|H]; [left; split; [now apply backend_name_inj | reflexivity]
                    | now right].
    + intros [[-> _]|H]; [now left | now right].
  - rewrite store_falsy by exact E. intuition congruence.
Qed.

Lemma collected_mem (w : world) (b : backend) (pdf_path : str) :
  dict_mem (backend_name b) (collected w pdf_path) = true
  <-> truthy (extractor_result w b pdf_path) = true.
Proof.
  unfold collected. rewrite !store_mem. simpl dict_mem.
  destruct b; simpl extractor_result; intuition congruence.
Qed.

Lemma collected_empty (w : world) (pdf_path : str) :
  (forall b, truthy (extractor_result w b pdf_path) = false) ->
  collected w pdf_path = [].
Proof.
  intros H. unfold collected.
  rewrite (store_falsy _ PyMuPDF _ (H PyMuPDF)).
  rewrite (store_falsy _ PDFMiner _ (H PDFMiner)).
  now rewrite (store_falsy _ PyPDF2 _ (H PyPDF2)).
Qed.

Lemma collected_single (w : world) (b : backend) (pdf_path text : str) :
  extractor_result w b pdf_path = Some text -> text <> [] ->
  (forall b', b' <> b -> truthy (extractor_result w b' pdf_path) = false) ->
  collected w pdf_path = [(backend_name b, text)].
Proof.
  intros Hb Hne Hothers. unfold collected.
  assert (Ht : truthy_str text = true) by now apply truthy_str_true.
  destruct b; simpl in Hb.
  - rewrite (store_falsy _ PyMuPDF _ (Hothers PyMuPDF ltac:(discriminate))).
    rewrite (store_falsy _ PDFMiner _ (Hothers PDFMiner ltac:(discriminate))).
    rewrite Hb. simpl. now rewrite Ht.
  - rewrite (store_falsy _ PyMuPDF _ (Hothers PyMuPDF ltac:(discriminate))).
    rewrite (store_falsy _ PyPDF2 _ (Hothers PyPDF2 ltac:(discriminate))).
    rewrite Hb. simpl. now rewrite Ht.
  - rewrite (store_falsy _ PDFMiner _ (Hothers PDFMiner ltac:(discriminate))).
    rewrite (store_falsy _ PyPDF2 _ (Hothers PyPDF2 ltac:(discriminate))).
    rewrite Hb. simpl. now rewrite Ht.
Qed.

(** What an extractor returned, read off its run. *)
Lemma extract_with_value (w : world) (b : backend) (pdf_path : str)
    (r : option str) :
  value (extract_with w b pdf_path) = Return r ->
  extractor_result w b pdf_path = r.
Proof.
  intros H. rewrite (run_value (extract_with_run w b pdf_path)) in H.
  congruence.
Qed.

Lemma collect_results_value (w : world) (pdf_path : str) (results : dict) :
  value (collect_results w pdf_path) = Return results ->
  results = collected w pdf_path.
Proof.
  intros H. destruct (collect_results_run w pdf_path) as (V & _).
  congruence.
Qed.

(** A backend one of whose library calls raises yields [None]. *)
Lemma backend_raises_none (w : world) (b : backend) (pdf_path : str) :
  backend_raises w b pdf_path = true -> extractor_result w b pdf_path = None.
Proof.
  destruct b; simpl; unfold pypdf2_result, pdfminer_result, pymupdf_result.
  - destruct (PdfReader_pages w pdf_path) as [pages|e]; [|reflexivity].
    intros H. pose proof (page_loop_raises PyPDF2 pages H 1 []) as R.
    now destruct (page_loop PyPDF2 1 pages []).
  - now destruct (pdfminer_extract_text w pdf_path).
  - destruct (fitz_open w pdf_path) as [doc|e]; [|reflexivity].
    rewrite orb_true_iff. intros [H|H].
    + pose proof (page_loop_raises PyMuPDF doc H 1 []) as R.
      now destruct (page_loop PyMuPDF 1 doc []).
    + destruct (page_loop PyMuPDF 1 doc []); [|reflexivity].
      now destruct (fitz_close w pdf_path).
Qed.

(** The orchestrator always returns. *)
Lemma extract_pdf_text_returns (w : world) (pdf_path : str)
    (output_path : option str) :
  exists r, value (extract_pdf_text w pdf_path output_path) = Return r.
Proof.
  destruct (os_path_exists w pdf_path) eqn:Hex.
  - destruct (collected w pdf_path) as [|kv r] eqn:Ec.
    + exists None. now apply extract_pdf_text_nothing.
    + assert (Hne : collected w pdf_path <> []) by (rewrite Ec; discriminate).
      destruct (primary_exists Hne (collected_keys_within w pdf_path))
        as [b Hb].
      pose proof (select_best_spec (collected w pdf_path)) as Hsel.
      rewrite Hb in Hsel. destruct Hsel as (text & _ & Hsel).
      destruct (extract_pdf_text_report w pdf_path output_path Hex Hne Hsel)
        as (V & _).
      eexists. exact V.
  - exists None. now rewrite extract_pdf_text_missing.
Qed.

(* ===================================================================== *)
(** ** The script's texts against the texts written out *)
(* ===================================================================== *)

Lemma page_marker_expected (page_num : nat) (b : backend) :
  page_marker page_num b = expected_marker page_num (backend_name b).
Proof. reflexivity. Qed.

Lemma paged_text_cons (b : backend) (n : nat) (page_text : str)
    (pages : list str) :
  paged_text b n (page_text :: pages)
  = (if has_text page_text then page_section b (n, page_text) else [])
      ++ paged_text b (S n) pages.
Proof.
  unfold paged_text. cbn [length seq combine filter snd].
  destruct (has_text page_text); reflexivity.
Qed.

Lemma paged_text_expected (b : backend) (pages : list str) : forall n,
  paged_text b n pages = expected_sections (backend_name b) n pages.
Proof.
  induction pages as [|page_text r IH]; intros n; [reflexivity|].
  rewrite paged_text_cons, IH. cbn [expected_sections].
  unfold has_text, page_section. cbn [fst snd].
  rewrite page_marker_expected.
  destruct (forallb isspace page_text); reflexivity.
Qed.

Lemma report_header_expected (w : world) (pdf_path : str) :
  report_header w pdf_path = expected_header pdf_path (datetime_now w).
Proof. unfold report_header, expected_header. reflexivity. Qed.

Lemma main_section_expected (method best_text : str) :
  main_section method best_text = expected_main_section method best_text.
Proof. unfold main_section, expected_main_section. reflexivity. Qed.

Lemma reference_section_expected (method_name text : str) :
  reference_section method_name text
  = expected_reference_section method_name text.
Proof. unfold reference_section, expected_reference_section. reflexivity. Qed.

Lemma reference_loop_expected (items : dict) (method : str) :
  forall combined_text,
    reference_loop items method combined_text
    = combined_text
        ++ expected_reference_sections
             (filter (fun kv => negb (str_eqb (fst kv) method)) items).
Proof.
  unfold expected_reference_sections.
  induction items as [|[method_name text] r IH]; intros c; cbn [reference_loop
    filter fst].
  - cbn. now rewrite app_nil_r.
  - destruct (negb (str_eqb method_name method)); [|apply IH].
    rewrite IH. cbn [map concat fst snd].
    now rewrite reference_section_expected, <- app_assoc.
Qed.

Lemma references_expected (results : dict) (method : str) :
  references results method = expected_references results method.
Proof.
  unfold references, add_references, expected_references, reference_heading.
  destruct results as [|kv1 [|kv2 r]]; try reflexivity.
  cbn [length Nat.ltb Nat.leb]. rewrite reference_loop_expected.
  now rewrite app_nil_l.
Qed.

Lemma report_expected (w : world) (pdf_path : str) (results : dict)
    (method best_text : str) :
  report w pdf_path results method best_text
  = expected_header pdf_path (datetime_now w)
      ++ expected_main_section method best_text
      ++ expected_references results method.
Proof.
  unfold report.
  now rewrite report_header_expected, main_section_expected,
    references_expected.
Qed.

(* ===================================================================== *)
(** ** The two embeddings agree where nothing escapes *)
(* ===================================================================== *)






















(* ===================================================================== *)
(** ** Properties of the script *)
(* ===================================================================== *)

(** C1. In every run in which the dict of successful results is not empty,
    the report is the header followed by the main-content section of the
    first backend of the priority order PyMuPDF > PDFMiner > PyPDF2 that is
    a key of the dict: the section's heading line names that backend, its
    body is that backend's text in the dict.  The reference part follows. *)
Theorem main_content_is_first_by_priority (w : world) (pdf_path : str)
    (output_path : option str) (results : dict) :
  os_path_exists w pdf_path = true ->
  value (collect_results w pdf_path) = Return results ->
  results <> [] ->
  exists b text,
    primary_by_priority results = Some b
    /\ dict_get results (backend_name b) = Some text
    /\ value (extract_pdf_text w pdf_path output_path)
       = Return (Some (expected_header pdf_path (datetime_now w)
                         ++ (u "## 主要内容 (使用 " ++ backend_name b ++ u ")"
                               ++ nl ++ nl ++ text ++ nl ++ nl)
                         ++ expected_references results (backend_name b))).
Proof.
  intros Hex Hv Hne. apply collect_results_value in Hv. subst results.
  destruct (primary_exists Hne (collected_keys_within w pdf_path)) as [b Hb].
  pose proof (select_best_spec (collected w pdf_path)) as Hsel.
  rewrite Hb in Hsel. destruct Hsel as (text & Hget & Hsel).
  exists b, text. split; [exact Hb|]. split; [exact Hget|].
  pose proof (extract_pdf_text_report w pdf_path output_path Hex Hne Hsel)
    as H.
  cbv zeta in H. destruct H as (V & _).
  rewrite V, report_expected. reflexivity.
Qed.

Lemma main_content_is_first_by_priority_witness :
  exists b text,
    primary_by_priority (collected healthy main_pdf_path) = Some b
    /\ dict_get (collected healthy main_pdf_path) (backend_name b) = Some text
    /\ value (extract_pdf_text healthy main_pdf_path (Some main_output_path))
       = Return (Some (expected_header main_pdf_path (datetime_now healthy)
                         ++ (u "## 主要内容 (使用 " ++ backend_name b ++ u ")"
                               ++ nl ++ nl ++ text ++ nl ++ nl)
                         ++ expected_references
                              (collected healthy main_pdf_path)
                              (backend_name b))).
Proof.
  apply (@main_content_is_first_by_priority healthy main_pdf_path
           (Some main_output_path) (collected healthy main_pdf_path)).
  - reflexivity.
  - vm_compute. reflexivity.
  - vm_compute. discriminate.
Defined.




(** C3. When the input path does not name an existing file, the
    orchestrator returns [None] and enters none of the three extractors. *)
Theorem missing_input_fails_fast (w : world) (pdf_path : str)
    (output_path : option str) :
  os_path_exists w pdf_path = false ->
  value (extract_pdf_text w pdf_path output_path) = Return None
  /\ invocations (trace (extract_pdf_text w pdf_path output_path)) = [].
Proof.
  intros H. rewrite (extract_pdf_text_missing w pdf_path output_path H).
  split; reflexivity.
Qed.

Lemma missing_input_fails_fast_witness :
  value (extract_pdf_text missing_file main_pdf_path (Some main_output_path))
  = Return None
  /\ invocations (trace (extract_pdf_text missing_file main_pdf_path
                           (Some main_output_path))) = [].
Proof.
  apply (@missing_input_fails_fast missing_file main_pdf_path
           (Some main_output_path)).
  reflexivity.
Defined.

(** C4. When each of the three extractors returns a failure value ([None]
    or an empty string), the orchestrator returns [None] and writes no
    file, whether or not an output path was given. *)
Theorem all_failed_no_report (w : world) (pdf_path : str)
    (output_path : option str) :
  os_path_exists w pdf_path = true ->
  (forall b, exists r,
      value (extract_with w b pdf_path) = Return r /\ truthy r = false) ->
  value (extract_pdf_text w pdf_path output_path) = Return None
  /\ writes (trace (extract_pdf_text w pdf_path output_path)) = [].
Proof.
  intros Hex Hall.
  assert (Hc : collected w pdf_path = []).
  { apply collected_empty. intros b. destruct (Hall b) as (r & Hv & Ht).
    now rewrite (extract_with_value _ _ _ Hv). }
  destruct (extract_pdf_text_nothing w pdf_path output_path Hex Hc)
    as (V & _ & W).
  now split.
Qed.

Lemma all_failed_no_report_witness :
  value (extract_pdf_text all_broken main_pdf_path (Some main_output_path))
  = Return None
  /\ writes (trace (extract_pdf_text all_broken main_pdf_path
                      (Some main_output_path))) = [].
Proof.
  apply (@all_failed_no_report all_broken main_pdf_path
           (Some main_output_path)).
  - reflexivity.
  - intros b. exists None. destruct b; split; reflexivity.
Defined.

(** C6. In every run in which the input file exists, the orchestrator
    enters the three extractors, each once, in the order PyPDF2, PDFMiner,
    PyMuPDF, whatever the earlier ones returned. *)
Theorem all_extractors_invoked_in_order (w : world) (pdf_path : str)
    (output_path : option str) :
  os_path_exists w pdf_path = true ->
  invocations (trace (extract_pdf_text w pdf_path output_path))
  = [(PyPDF2, pdf_path); (PDFMiner, pdf_path); (PyMuPDF, pdf_path)].
Proof.
  intros Hex. destruct (collected w pdf_path) as [|kv r] eqn:Ec.
  - now destruct (extract_pdf_text_nothing w pdf_path output_path Hex Ec)
      as (_ & I & _).
  - assert (Hne : collected w pdf_path <> []) by (rewrite Ec; discriminate).
    destruct (primary_exists Hne (collected_keys_within w pdf_path))
      as [b Hb].
    pose proof (select_best_spec (collected w pdf_path)) as Hsel.
    rewrite Hb in Hsel. destruct Hsel as (text & _ & Hsel).
    now destruct (extract_pdf_text_report w pdf_path output_path Hex Hne Hsel)
      as (_ & I & _).
Qed.

Lemma all_extractors_invoked_in_order_witness :
  invocations (trace (extract_pdf_text healthy main_pdf_path None))
  = [(PyPDF2, main_pdf_path); (PDFMiner, main_pdf_path);
     (PyMuPDF, main_pdf_path)].
Proof.
  apply (@all_extractors_invoked_in_order healthy main_pdf_path None).
  reflexivity.
Defined.

Lemma pages_read_or_raise (pages : list (outcome str)) :
  (exists texts, pages = map (@Return str) texts)
  \/ existsb raises pages = true.
Proof.
  induction pages as [|[page_text|e] r IH]; simpl.
  - left. now exists [].
  - destruct IH as [[texts ->]|H]; [left | now right].
    now exists (page_text :: texts).
  - now right.
Qed.

Lemma page_section_not_empty (b : backend) (item : nat * str) :
  page_section b item <> [].
Proof. unfold page_section, page_marker. discriminate. Qed.

Lemma paged_text_empty (b : backend) (pages : list str) : forall start,
  paged_text b start pages = []
  <-> forallb (fun page_text => negb (has_text page_text)) pages = true.
Proof.
  unfold paged_text.
  induction pages as [|page_text r IH]; intros start; cbn; [tauto|].
  destruct (has_text page_text); cbn.
  - split; [|discriminate]. intros H. apply app_eq_nil in H.
    now destruct (page_section_not_empty (proj1 H)).
  - apply IH.
Qed.

(** C5, as stated, fails: on a scanned document (one page, no text layer)
    PyPDF2's extractor returns the empty string, which is neither [None]
    nor a non-empty text; and what pdfminer's extractor returns is not made
    of per-page sections, whatever the pages are. *)
Lemma empty_string_is_a_third_outcome :
  ~ contract_as_stated PyPDF2 [u " " ++ nl]
      (value (extract_with_pypdf2 scanned main_pdf_path))
  /\ value (extract_with_pypdf2 scanned main_pdf_path) = Return (Some [])
  /\ forall pages,
       ~ contract_as_stated PDFMiner pages
           (value (extract_with_pdfminer healthy main_pdf_path)).
Proof.
  assert (E : value (extract_with_pypdf2 scanned main_pdf_path)
              = Return (Some [])) by reflexivity.
  split; [|split].
  - rewrite E. intros [H|(text & H & Hne & _)]; [discriminate|].
    injection H as <-. now apply Hne.
  - exact E.
  - intros pages [H|(text & H & _ & Hp)]; [vm_compute in H; discriminate|].
    rewrite (run_value (extract_with_pdfminer_run healthy main_pdf_path)) in H.
    change (pdfminer_result healthy main_pdf_path)
      with (Some (pdfminer_block (u "Intro" ++ nl ++ u "End"))) in H.
    injection H as <-. revert Hp. unfold paged_text.
    destruct (filter _ _) as [|[n s] l]; intros Hp; vm_compute in Hp;
      discriminate Hp.
Qed.

Lemma not_raising_pages (pages : list (outcome str)) :
  existsb raises pages = false ->
  exists texts, pages = map (@Return str) texts.
Proof.
  intros H. destruct (pages_read_or_raise pages) as [Hp|Hp];
    [exact Hp | congruence].
Qed.

Lemma expected_sections_empty (name : str) (pages : list str) :
  forall start,
    expected_sections name start pages = []
    <-> forallb (forallb isspace) pages = true.
Proof.
  induction pages as [|page_text r IH]; intros start;
    cbn [expected_sections forallb]; [tauto|].
  destruct (forallb isspace page_text); cbn [andb app].
  - apply IH.
  - split; [|discriminate]. unfold expected_marker, nl. discriminate.
Qed.

(** C5, amended.  Each extractor returns [None] or a string.  It returns
    [None] when one of its library calls raises.  Otherwise PyPDF2's and
    PyMuPDF's return the sections of the pages that have text, in page
    order, each made of the page's marker line, the page's text and a
    newline; that string is empty exactly when no page has text.
    Otherwise pdfminer's returns [None] when the text is empty or all
    whitespace, and else one header line followed by the whole text, with
    no per-page labels.  The orchestrator treats the empty string like
    [None]: a backend is a key of the results dict exactly when its
    extractor returned a non-empty string. *)
Theorem extractor_outcomes (w : world) (pdf_path : str) :
  (forall b,
     backend_raises w b pdf_path = true ->
     value (extract_with w b pdf_path) = Return None)
  /\ (backend_raises w PyPDF2 pdf_path = false ->
      exists pages : list str,
        PdfReader_pages w pdf_path = Return (map (@Return str) pages)
        /\ value (extract_with_pypdf2 w pdf_path)
           = Return (Some (expected_sections (u "PyPDF2") 1 pages)))
  /\ (backend_raises w PyMuPDF pdf_path = false ->
      exists pages : list str,
        fitz_open w pdf_path = Return (map (@Return str) pages)
        /\ value (extract_with_pymupdf w pdf_path)
           = Return (Some (expected_sections (u "PyMuPDF") 1 pages)))
  /\ (backend_raises w PDFMiner pdf_path = false ->
      exists text : str,
        pdfminer_extract_text w pdf_path = Return text
        /\ value (extract_with_pdfminer w pdf_path)
           = Return (if forallb isspace text then None
                     else Some (nl ++ u "=== PDFMiner提取结果 ===" ++ nl
                                   ++ text ++ nl)))
  /\ (forall (name : str) (start : nat) (pages : list str),
        expected_sections name start pages = []
        <-> forallb (forallb isspace) pages = true)
  /\ (forall (b : backend) (r : option str) (results : dict),
        value (extract_with w b pdf_path) = Return r ->
        value (collect_results w pdf_path) = Return results ->
        dict_mem (backend_name b) results = truthy r).
Proof.
  split; [|split; [|split; [|split; [|split]]]].
  - intros b H. rewrite (run_value (extract_with_run w b pdf_path)).
    now rewrite (backend_raises_none w b pdf_path H).
  - cbn [backend_raises]. intros H.
    rewrite (run_value (extract_with_pypdf2_run w pdf_path)).
    unfold pypdf2_result.
    destruct (PdfReader_pages w pdf_path) as [pages|e]; [|discriminate].
    destruct (not_raising_pages pages H) as [texts ->].
    exists texts. split; [reflexivity|].
    rewrite page_loop_all_return, app_nil_l, paged_text_expected.
    reflexivity.
  - cbn [backend_raises]. intros H.
    rewrite (run_value (extract_with_pymupdf_run w pdf_path)).
    unfold pymupdf_result.
    destruct (fitz_open w pdf_path) as [doc|e]; [|discriminate].
    apply orb_false_iff in H. destruct H as [Hpages Hclose].
    destruct (not_raising_pages doc Hpages) as [texts ->].
    exists texts. split; [reflexivity|].
    rewrite page_loop_all_return, app_nil_l, paged_text_expected.
    destruct (fitz_close w pdf_path); [reflexivity | discriminate].
  - cbn [backend_raises]. intros H.
    rewrite (run_value (extract_with_pdfminer_run w pdf_path)).
    unfold pdfminer_result, has_text, pdfminer_block.
    destruct (pdfminer_extract_text w pdf_path) as [text|e]; [|discriminate].
    exists text. split; [reflexivity|].
    now destruct (forallb isspace text).
  - intros name start pages. apply expected_sections_empty.
  - intros b r results Hr Hres.
    apply extract_with_value in Hr. apply collect_results_value in Hres.
    subst r results.
    destruct (truthy (extractor_result w b pdf_path)) eqn:Et.
    + now apply collected_mem.
    + destruct (dict_mem _ _) eqn:Em; [|reflexivity].
      apply collected_mem in Em. congruence.
Qed.

(** C7. In both page loops a page whose text is empty or all whitespace
    leaves the accumulated text as it was: no marker and no text are
    appended for it.  A page with text appends its marker and its text.
    Hence the output for a readable document is made of the sections of
    the pages that have text, and of nothing else. *)
Theorem blank_pages_are_skipped (w : world) (pdf_path : str) :
  (forall (page_num : nat) (page_text text : str),
      forallb isspace page_text = true ->
      pypdf2_page (page_num, Return page_text) text = ret text)
  /\ (forall (doc : list (outcome str)) (page_num : nat)
         (page_text text : str),
        nth_error doc page_num = Some (Return page_text) ->
        forallb isspace page_text = true ->
        pymupdf_page doc page_num text = ret text)
  /\ (forall (page_num : nat) (page_text text : str),
        forallb isspace page_text = false ->
        pypdf2_page (page_num, Return page_text) text
        = ret ((text ++ page_marker page_num PyPDF2) ++ (page_text ++ nl)))
  /\ (forall (doc : list (outcome str)) (page_num : nat)
         (page_text text : str),
        nth_error doc page_num = Some (Return page_text) ->
        forallb isspace page_text = false ->
        pymupdf_page doc page_num text
        = ret ((text ++ page_marker (page_num + 1) PyMuPDF)
                 ++ (page_text ++ nl)))
  /\ (forall pages : list str,
        PdfReader_pages w pdf_path = Return (map (@Return str) pages) ->
        value (extract_with_pypdf2 w pdf_path)
        = Return (Some (paged_text PyPDF2 1 pages)))
  /\ (forall pages : list str,
        fitz_open w pdf_path = Return (map (@Return str) pages) ->
        fitz_close w pdf_path = Return tt ->
        value (extract_with_pymupdf w pdf_path)
        = Return (Some (paged_text PyMuPDF 1 pages))).
Proof.
  split; [|split; [|split; [|split; [|split]]]].
  - intros page_num page_text text H. unfold pypdf2_page. cbn.
    rewrite truthy_strip. unfold has_text. now rewrite H.
  - intros doc page_num page_text text Hn H.
    unfold pymupdf_page, fitz_page_text. rewrite Hn. cbn.
    rewrite truthy_strip. unfold has_text. now rewrite H.
  - intros page_num page_text text H. unfold pypdf2_page. cbn.
    rewrite truthy_strip. unfold has_text. now rewrite H.
  - intros doc page_num page_text text Hn H.
    unfold pymupdf_page, fitz_page_text. rewrite Hn. cbn.
    rewrite truthy_strip. unfold has_text. now rewrite H.
  - intros pages H.
    rewrite (run_value (extract_with_pypdf2_run w pdf_path)).
    unfold pypdf2_result. now rewrite H, page_loop_all_return.
  - intros pages H Hc.
    rewrite (run_value (extract_with_pymupdf_run w pdf_path)).
    unfold pymupdf_result. now rewrite H, page_loop_all_return, Hc.
Qed.

Lemma blank_pages_are_skipped_witness :
  pypdf2_page (2, Return (u " " ++ nl)) (u "so far") = ret (u "so far")
  /\ pymupdf_page (map (@Return str) three_pages) 1 (u "so far")
     = ret (u "so far")
  /\ pypdf2_page (3, Return (u "End")) (u "so far")
     = ret ((u "so far" ++ page_marker 3 PyPDF2) ++ (u "End" ++ nl))
  /\ pymupdf_page (map (@Return str) three_pages) 2 (u "so far")
     = ret ((u "so far" ++ page_marker (2 + 1) PyMuPDF) ++ (u "End" ++ nl))
  /\ value (extract_with_pypdf2 healthy main_pdf_path)
     = Return (Some (paged_text PyPDF2 1 three_pages))
  /\ value (extract_with_pymupdf healthy main_pdf_path)
     = Return (Some (paged_text PyMuPDF 1 three_pages)).
Proof.
  destruct (blank_pages_are_skipped healthy main_pdf_path)
    as (H1 & H2 & H3 & H4 & H5 & H6).
  split; [|split; [|split; [|split; [|split]]]].
  - apply H1. reflexivity.
  - apply (H2 _ _ (u " " ++ nl)); reflexivity.
  - apply H3. reflexivity.
  - apply (H4 _ _ (u "End")); reflexivity.
  - apply H5. reflexivity.
  - apply H6; reflexivity.
Defined.

(** C8. When exactly one backend succeeds, with text [T], the results dict
    has that single entry and the report is the header followed by the
    main section alone: the heading line that names the backend, then
    [T].  Nothing follows it: no reference heading and no reference
    section. *)
Theorem single_success_has_no_references (w : world) (pdf_path : str)
    (output_path : option str) (b : backend) (T : str) :
  os_path_exists w pdf_path = true ->
  value (extract_with w b pdf_path) = Return (Some T) ->
  T <> [] ->
  (forall b', b' <> b ->
     exists r, value (extract_with w b' pdf_path) = Return r
               /\ truthy r = false) ->
  value (collect_results w pdf_path) = Return [(backend_name b, T)]
  /\ references [(backend_name b, T)] (backend_name b) = []
  /\ value (extract_pdf_text w pdf_path output_path)
     = Return (Some (expected_header pdf_path (datetime_now w)
                       ++ u "## 主要内容 (使用 " ++ backend_name b ++ u ")"
                       ++ nl ++ nl ++ T ++ nl ++ nl)).
Proof.
  intros Hex Hb Hne Hothers.
  assert (Hc : collected w pdf_path = [(backend_name b, T)]).
  { apply collected_single; [now apply extract_with_value | exact Hne |].
    intros b' Hb'. destruct (Hothers b' Hb') as (r & Hv & Ht).
    now rewrite (extract_with_value _ _ _ Hv). }
  assert (Hsel : select_best (collected w pdf_path)
                 = (Return (T, backend_name b), [])).
  { rewrite Hc. destruct b; reflexivity. }
  assert (Hnonempty : collected w pdf_path <> [])
    by (rewrite Hc; discriminate).
  pose proof (extract_pdf_text_report w pdf_path output_path Hex Hnonempty
                Hsel) as H.
  cbv zeta in H. destruct H as (V & _).
  split; [|split].
  - rewrite <- Hc. apply collect_results_run.
  - reflexivity.
  - rewrite V, report_expected, Hc.
    unfold expected_references, expected_main_section.
    cbn [length Nat.leb]. now rewrite app_nil_r.
Qed.

Lemma single_success_has_no_references_witness :
  value (collect_results only_pdfminer main_pdf_path)
  = Return [(backend_name PDFMiner,
             pdfminer_block (u "Intro" ++ nl ++ u "End"))]
  /\ references [(backend_name PDFMiner,
                  pdfminer_block (u "Intro" ++ nl ++ u "End"))]
       (backend_name PDFMiner) = []
  /\ value (extract_pdf_text only_pdfminer main_pdf_path
              (Some main_output_path))
     = Return (Some (expected_header main_pdf_path
                       (datetime_now only_pdfminer)
                       ++ u "## 主要内容 (使用 " ++ backend_name PDFMiner
                       ++ u ")" ++ nl ++ nl
                       ++ pdfminer_block (u "Intro" ++ nl ++ u "End")
                       ++ nl ++ nl)).
Proof.
  apply (@single_success_has_no_references only_pdfminer main_pdf_path
           (Some main_output_path) PDFMiner
           (pdfminer_block (u "Intro" ++ nl ++ u "End"))).
  - reflexivity.
  - reflexivity.
  - discriminate.
  - intros b' Hb'. exists None.
    destruct b'; [split; reflexivity | contradiction | split; reflexivity].
Defined.

(** C9. When at least one backend succeeded and an output path was given,
    the orchestrator returns the same report text whatever the write to
    the output file does: a write that raises is caught, and the text
    returned is the text that was handed to the write. *)
Theorem write_failure_keeps_report (w : world) (pdf_path path : str)
    (results : dict) :
  os_path_exists w pdf_path = true ->
  value (collect_results w pdf_path) = Return results ->
  results <> [] ->
  path <> [] ->
  exists text,
    forall write,
      value (extract_pdf_text (with_open_write w write) pdf_path (Some path))
      = Return (Some text)
      /\ writes (trace (extract_pdf_text (with_open_write w write) pdf_path
                          (Some path)))
         = [(path, text)].
Proof.
  intros Hex Hv Hne Hpath. apply collect_results_value in Hv. subst results.
  destruct (primary_exists Hne (collected_keys_within w pdf_path)) as [b Hb].
  pose proof (select_best_spec (collected w pdf_path)) as Hsel.
  rewrite Hb in Hsel. destruct Hsel as (best_text & _ & Hsel).
  exists (report w pdf_path (collected w pdf_path) (backend_name b) best_text).
  intros write.
  assert (Hc' : collected (with_open_write w write) pdf_path
                = collected w pdf_path) by reflexivity.
  assert (Hh : report_header (with_open_write w write) pdf_path
               = report_header w pdf_path).
  { unfold report_header. cbn [datetime_now with_open_write]. reflexivity. }
  rewrite <- Hc' in Hne, Hsel.
  pose proof (@extract_pdf_text_report (with_open_write w write) pdf_path
                (Some path) (backend_name b) best_text Hex Hne Hsel) as H.
  cbv zeta in H. destruct H as (V & _ & W).
  apply truthy_str_true in Hpath.
  rewrite V, W, Hpath. unfold report. rewrite Hh, Hc'.
  split; reflexivity.
Qed.

Lemma write_failure_keeps_report_witness :
  exists text,
    forall write,
      value (extract_pdf_text (with_open_write healthy write) main_pdf_path
               (Some main_output_path))
      = Return (Some text)
      /\ writes (trace (extract_pdf_text (with_open_write healthy write)
                          main_pdf_path (Some main_output_path)))
         = [(main_output_path, text)].
Proof.
  apply (@write_failure_keeps_report healthy main_pdf_path main_output_path
           (collected healthy main_pdf_path)).
  - reflexivity.
  - vm_compute. reflexivity.
  - vm_compute. discriminate.
  - vm_compute. discriminate.
Defined.

(** C10. The keys of the collected dict are among the three identifiers;
    so when the dict is not empty the choice of the main content returns
    and raises no lookup error: if neither 'PyMuPDF' nor 'PDFMiner' is a
    key, which is the only case that reaches [results['PyPDF2']], then
    'PyPDF2' is a key and the lookup returns its text. *)
Theorem primary_selection_is_total (w : world) (pdf_path : str)
    (results : dict) :
  value (collect_results w pdf_path) = Return results ->
  results <> [] ->
  keys_within results
  /\ (exists best_text method : str,
        select_best results = (Return (best_text, method), []))
  /\ (forall best_text : str,
        select_best results = (Return (best_text, u "PyPDF2"), []) ->
        dict_mem (u "PyMuPDF") results = false
        /\ dict_mem (u "PDFMiner") results = false)
  /\ (dict_mem (u "PyMuPDF") results = false ->
      dict_mem (u "PDFMiner") results = false ->
      dict_mem (u "PyPDF2") results = true
      /\ exists text : str,
           getitem results PyPDF2 = (Return text, [])).
Proof.
  intros Hv Hne. apply collect_results_value in Hv. subst results.
  pose proof (collected_keys_within w pdf_path) as Hk.
  destruct (primary_exists Hne Hk) as [b Hb].
  split; [exact Hk|split; [|split]].
  - pose proof (select_best_spec (collected w pdf_path)) as Hsel.
    rewrite Hb in Hsel. destruct Hsel as (text & _ & Hsel).
    now exists text, (backend_name b).
  - intros best_text Hbest.
    pose proof (select_best_spec (collected w pdf_path)) as Hsel.
    rewrite Hb in Hsel. destruct Hsel as (text & _ & Hsel).
    rewrite Hsel in Hbest.
    injection Hbest as _ Hname.
    change (u "PyPDF2") with (backend_name PyPDF2) in Hname.
    apply backend_name_inj in Hname. subst b.
    unfold primary_by_priority, priority in Hb. simpl find in Hb.
    change (backend_name PyMuPDF) with (u "PyMuPDF") in Hb.
    change (backend_name PDFMiner) with (u "PDFMiner") in Hb.
    destruct (dict_mem (u "PyMuPDF") (collected w pdf_path));
      [discriminate|].
    destruct (dict_mem (u "PDFMiner") (collected w pdf_path));
      [discriminate|].
    now split.
  - intros E3 E2. unfold primary_by_priority, priority in Hb.
    simpl find in Hb.
    change (backend_name PyMuPDF) with (u "PyMuPDF") in Hb.
    change (backend_name PDFMiner) with (u "PDFMiner") in Hb.
    change (backend_name PyPDF2) with (u "PyPDF2") in Hb.
    rewrite E3, E2 in Hb.
    destruct (dict_mem (u "PyPDF2") (collected w pdf_path)) eqn:E1;
      [|discriminate].
    split; [reflexivity|].
    destruct (dict_get_mem _ _ E1) as [v Hget]. exists v.
    unfold getitem. change (backend_name PyPDF2) with (u "PyPDF2").
    now rewrite Hget.
Qed.

(** In the world of the witness only PyPDF2 succeeds, so the choice goes
    through its last branch: neither 'PyMuPDF' nor 'PDFMiner' is a key, and
    the lookup of 'PyPDF2' returns. *)
Lemma primary_selection_is_total_witness :
  keys_within (collected only_pypdf2 main_pdf_path)
  /\ select_best (collected only_pypdf2 main_pdf_path)
     = (Return (paged_text PyPDF2 1 three_pages, u "PyPDF2"), [])
  /\ (dict_mem (u "PyMuPDF") (collected only_pypdf2 main_pdf_path) = false
      /\ dict_mem (u "PDFMiner") (collected only_pypdf2 main_pdf_path)
         = false)
  /\ dict_mem (u "PyPDF2") (collected only_pypdf2 main_pdf_path) = true
  /\ exists text : str,
       getitem (collected only_pypdf2 main_pdf_path) PyPDF2
       = (Return text, []).
Proof.
  destruct (@primary_selection_is_total only_pypdf2 main_pdf_path
              (collected only_pypdf2 main_pdf_path))
    as (Hk & _ & Honly & Hfallback).
  - vm_compute. reflexivity.
  - vm_compute. discriminate.
  - split; [exact Hk|]. split; [reflexivity|].
    split; [apply (Honly (paged_text PyPDF2 1 three_pages)); reflexivity|].
    apply Hfallback; reflexivity.
Defined.

(* ===================================================================== *)
(** ** What the extractors print *)
(* ===================================================================== *)

Lemma page_loop_first_raise (b : backend) (pages : list (outcome str)) :
  forall n text,
    match first_raise pages with
    | Some e => page_loop b n pages text = Raise e
    | None => exists t, page_loop b n pages text = Return t
    end.
Proof.
  induction pages as [|[page_text|e] r IH]; intros n text; simpl.
  - now exists text.
  - apply IH.
  - reflexivity.
Qed.

Lemma extract_with_pypdf2_trace (w : world) (pdf_path : str) :
  trace (extract_with_pypdf2 w pdf_path)
  = Invoke PyPDF2 pdf_path
      :: count_line w PyPDF2 pdf_path
      ++ match backend_exception w PyPDF2 pdf_path with
         | Some e => [failure_line PyPDF2 e]
         | None => []
         end.
Proof.
  unfold extract_with_pypdf2, enumerate, count_line, backend_exception.
  destruct (PdfReader_pages w pdf_path) as [pages|e]; cbn.
  - rewrite pypdf2_loop.
    pose proof (page_loop_first_raise PyPDF2 pages 1 []) as H.
    destruct (first_raise pages) as [e|].
    + rewrite H. reflexivity.
    + destruct H as [t ->]. reflexivity.
  - reflexivity.
Qed.

Lemma extract_with_pdfminer_trace (w : world) (pdf_path : str) :
  trace (extract_with_pdfminer w pdf_path)
  = Invoke PDFMiner pdf_path
      :: count_line w PDFMiner pdf_path
      ++ match backend_exception w PDFMiner pdf_path with
         | Some e => [failure_line PDFMiner e]
         | None => []
         end.
Proof.
  unfold extract_with_pdfminer, count_line, backend_exception.
  destruct (pdfminer_extract_text w pdf_path) as [text|e]; cbn.
  - destruct (truthy_str (strip text)); reflexivity.
  - reflexivity.
Qed.

Lemma extract_with_pymupdf_trace (w : world) (pdf_path : str) :
  trace (extract_with_pymupdf w pdf_path)
  = Invoke PyMuPDF pdf_path
      :: count_line w PyMuPDF pdf_path
      ++ match backend_exception w PyMuPDF pdf_path with
         | Some e => [failure_line PyMuPDF e]
         | None => []
         end.
Proof.
  unfold extract_with_pymupdf, range, count_line, backend_exception.
  destruct (fitz_open w pdf_path) as [doc|e]; cbn.
  - rewrite (pymupdf_loop doc []). cbn.
    pose proof (page_loop_first_raise PyMuPDF doc 1 []) as H.
    destruct (first_raise doc) as [e|].
    + rewrite H. reflexivity.
    + destruct H as [t ->]. cbn.
      destruct (fitz_close w pdf_path); reflexivity.
  - reflexivity.
Qed.

Lemma backend_exception_raises (w : world) (b : backend) (pdf_path : str) :
  backend_exception w b pdf_path <> None <->
  backend_raises w b pdf_path = true.
Proof.
  assert (Hfirst : forall pages,
            first_raise pages <> None <-> existsb raises pages = true).
  { induction pages as [|[page_text|e] r IH]; simpl.
    - split; [congruence | discriminate].
    - exact IH.
    - split; [reflexivity | discriminate]. }
  destruct b; simpl.
  - destruct (PdfReader_pages w pdf_path) as [pages|e];
      [apply Hfirst | split; [reflexivity | discriminate]].
  - destruct (pdfminer_extract_text w pdf_path); simpl;
      split; congruence.
  - destruct (fitz_open w pdf_path) as [doc|e];
      [|split; [reflexivity | discriminate]].
    rewrite orb_true_iff, <- Hfirst.
    destruct (first_raise doc) as [e|]; [split; [now left | discriminate]|].
    destruct (fitz_close w pdf_path); simpl; split;
      solve [congruence | intros [H|H]; congruence | now right].
Qed.

(** X1. An extractor prints the page count once its document is open (the
    two page-iterating ones only), then, when a library call raises an
    exception, exactly one failure line that carries the text of the first
    exception raised, and nothing else; in that case it returns [None].
    When no call raises it prints no failure line. *)
Theorem extractor_diagnostics (w : world) (b : backend) (pdf_path : str) :
  trace (extract_with w b pdf_path)
  = Invoke b pdf_path
      :: count_line w b pdf_path
      ++ match backend_exception w b pdf_path with
         | Some e => [failure_line b e]
         | None => []
         end
  /\ (forall e, backend_exception w b pdf_path = Some e ->
        value (extract_with w b pdf_path) = Return None).
Proof.
  split.
  - destruct b; [apply extract_with_pypdf2_trace
               | apply extract_with_pdfminer_trace
               | apply extract_with_pymupdf_trace].
  - intros e He.
    rewrite (run_value (extract_with_run w b pdf_path)).
    rewrite backend_raises_none; [reflexivity|].
    apply backend_exception_raises. congruence.
Qed.

(* ===================================================================== *)
(** ** What the orchestrator and the entry point print *)
(* ===================================================================== *)

Lemma record_result_trace (results : dict) (b : backend) (r : option str) :
  trace (record_result results b r)
  = if truthy r then [success_line b] else [].
Proof. destruct r as [[|c t]|]; reflexivity. Qed.

(** The trace of the collection: for each backend in call order, the
    attempt line, what the extractor does, and the success line when its
    result is kept. *)
Lemma collect_results_trace (w : world) (pdf_path : str) :
  trace (collect_results w pdf_path)
  = flat_map
      (fun b =>
         attempt_line b
           :: trace (extract_with w b pdf_path)
           ++ (if truthy (extractor_result w b pdf_path)
               then [success_line b] else []))
      [PyPDF2; PDFMiner; PyMuPDF].
Proof.
  destruct (extract_with_pypdf2_run w pdf_path) as [V1 _ _].
  destruct (extract_with_pdfminer_run w pdf_path) as [V2 _ _].
  destruct (extract_with_pymupdf_run w pdf_path) as [V3 _ _].
  unfold collect_results.
  set (r1 := store [] PyPDF2 (pypdf2_result w pdf_path)).
  set (r2 := store r1 PDFMiner (pdfminer_result w pdf_path)).
  destruct (record_result_run [] PyPDF2 (pypdf2_result w pdf_path))
    as (S1 & _).
  destruct (record_result_run r1 PDFMiner (pdfminer_result w pdf_path))
    as (S2 & _).
  destruct (record_result_run r2 PyMuPDF (pymupdf_result w pdf_path))
    as (S3 & _).
  fold r1 in S1. fold r2 in S2.
  rewrite (trace_bind_ret _ _ (a:=tt)) by reflexivity.
  rewrite (trace_bind_ret _ _ V1), (trace_bind_ret _ _ S1).
  rewrite (trace_bind_ret _ _ (a:=tt)) by reflexivity.
  rewrite (trace_bind_ret _ _ V2), (trace_bind_ret _ _ S2).
  rewrite (trace_bind_ret _ _ (a:=tt)) by reflexivity.
  rewrite (trace_bind_ret _ _ V3), (trace_bind_ret _ _ S3).
  rewrite !record_result_trace.
  cbn [flat_map extract_with extractor_result trace snd ret print emit].
  cbn [app]. rewrite <- !app_assoc. cbn [app]. rewrite !app_nil_r.
  reflexivity.
Qed.

Lemma save_report_trace (w : world) (output_path : option str) (text : str) :
  trace (save_report w output_path text)
  = match output_path with
    | Some ((_ :: _) as path) =>
        [WriteFile path text;
         match open_write w path text with
         | Return _ => Print (nl ++ u "提取结果已保存到: " ++ path)
         | Raise e => Print (u "保存文件失败: " ++ exn_str e)
         end]
    | _ => []
    end.
Proof.
  unfold save_report.
  destruct output_path as [[|c path]|]; cbn; try reflexivity.
  destruct (open_write w (c :: path) text); reflexivity.
Qed.

Lemma extract_pdf_text_trace (w : world) (pdf_path : str)
    (output_path : option str) :
  os_path_exists w pdf_path = true ->
  trace (extract_pdf_text w pdf_path output_path)
  = Print (u "开始提取PDF文件: " ++ pdf_path)
      :: trace (collect_results w pdf_path)
      ++ match value (extract_pdf_text w pdf_path output_path) with
         | Return (Some text) => trace (save_report w output_path text)
         | _ => [Print (u "所有方法都无法提取文本内容")]
         end.
Proof.
  intros Hex.
  destruct (collect_results_run w pdf_path) as (V & _).
  destruct (collected w pdf_path) as [|kv r] eqn:Ec.
  - destruct (extract_pdf_text_nothing w pdf_path output_path Hex Ec)
      as (-> & _).
    unfold extract_pdf_text. rewrite Hex. simpl negb. cbv iota.
    rewrite (trace_bind_ret _ _ (a:=tt)) by reflexivity.
    rewrite (trace_bind_ret _ _ V). reflexivity.
  - assert (Hne : collected w pdf_path <> []) by (rewrite Ec; discriminate).
    destruct (primary_exists Hne (collected_keys_within w pdf_path))
      as [b Hb].
    pose proof (select_best_spec (collected w pdf_path)) as Hsel.
    rewrite Hb in Hsel. destruct Hsel as (best_text & _ & Hsel).
    destruct (extract_pdf_text_report w pdf_path output_path Hex Hne Hsel)
      as (-> & _).
    set (text := report w pdf_path (collected w pdf_path) (backend_name b)
                   best_text).
    assert (Htext : add_references (collected w pdf_path) (backend_name b)
                      (report_header w pdf_path
                         ++ main_section (backend_name b) best_text)
                    = text).
    { unfold text, report. now rewrite add_references_app, <- app_assoc. }
    destruct (save_report_run w output_path text) as (SV & _).
    rewrite <- Ec in V.
    unfold extract_pdf_text. rewrite Hex. simpl negb. cbv iota.
    rewrite (trace_bind_ret _ _ (a:=tt)) by reflexivity.
    rewrite (trace_bind_ret _ _ V). cbv zeta.
    assert (Htd : negb (truthy_dict (collected w pdf_path)) = false)
      by now rewrite Ec.
    rewrite Htd, Hsel. unfold bind at 1. rewrite Htext.
    rewrite (surjective_run (save_report w output_path text)), SV.
    cbn. now rewrite app_nil_r.
Qed.

(* ===================================================================== *)
(** ** Further properties: the dict of results *)
(* ===================================================================== *)

Lemma store_entry (results : dict) (b : backend) (r : option str) :
  dict_mem (backend_name b) results = false ->
  store results b r = results ++ entry b r.
Proof.
  intros H. unfold store, entry.
  destruct r as [t|]; [destruct (truthy_str t)|];
    try (now rewrite app_nil_r).
  now apply dict_set_fresh.
Qed.

Lemma entry_mem (b b' : backend) (r : option str) :
  b <> b' -> dict_mem (backend_name b) (entry b' r) = false.
Proof.
  intros Hne. unfold entry.
  destruct r as [t|]; [destruct (truthy_str t)|]; try reflexivity.
  simpl. rewrite backend_name_eqb by congruence. reflexivity.
Qed.

Lemma dict_mem_app (key : str) (d d' : dict) :
  dict_mem key (d ++ d') = dict_mem key d || dict_mem key d'.
Proof.
  induction d as [|[k v] r IH]; simpl; [reflexivity|].
  now rewrite IH, orb_assoc.
Qed.

Lemma collected_entries (w : world) (pdf_path : str) :
  collected w pdf_path
  = entry PyPDF2 (pypdf2_result w pdf_path)
      ++ entry PDFMiner (pdfminer_result w pdf_path)
      ++ entry PyMuPDF (pymupdf_result w pdf_path).
Proof.
  unfold collected.
  rewrite (store_entry [] PyPDF2) by reflexivity. rewrite app_nil_l.
  rewrite (store_entry _ PDFMiner)
    by (apply entry_mem; discriminate).
  rewrite (store_entry _ PyMuPDF).
  - now rewrite <- app_assoc.
  - rewrite dict_mem_app, !entry_mem by discriminate. reflexivity.
Qed.

(** X2. The dict of results holds, in the order the extractors are called
    (PyPDF2, PDFMiner, PyMuPDF), one entry for each extractor that returned
    a non-empty string, keyed by the backend's name and holding that
    string; an extractor that returned [None] or the empty string leaves
    no entry. *)
Theorem results_hold_successes_in_call_order (w : world) (pdf_path : str)
    (r1 r2 r3 : option str) :
  value (extract_with_pypdf2 w pdf_path) = Return r1 ->
  value (extract_with_pdfminer w pdf_path) = Return r2 ->
  value (extract_with_pymupdf w pdf_path) = Return r3 ->
  value (collect_results w pdf_path)
  = Return (entry PyPDF2 r1 ++ entry PDFMiner r2 ++ entry PyMuPDF r3).
Proof.
  intros H1 H2 H3.
  apply (extract_with_value w PyPDF2) in H1.
  apply (extract_with_value w PDFMiner) in H2.
  apply (extract_with_value w PyMuPDF) in H3.
  simpl in H1, H2, H3. subst r1 r2 r3.
  rewrite <- collected_entries. apply collect_results_run.
Qed.

Lemma results_hold_successes_in_call_order_witness :
  value (collect_results no_pypdf2 main_pdf_path)
  = Return (entry PyPDF2 None
              ++ entry PDFMiner
                   (Some (pdfminer_block (u "Intro" ++ nl ++ u "End")))
              ++ entry PyMuPDF (Some (paged_text PyMuPDF 1 three_pages))).
Proof.
  apply (@results_hold_successes_in_call_order no_pypdf2 main_pdf_path);
    reflexivity.
Defined.

Lemma entry_In (b : backend) (r : option str) (k v : str) :
  In (k, v) (entry b r) -> k = backend_name b /\ r = Some v /\ v <> [].
Proof.
  unfold entry. destruct r as [[|c t]|]; simpl; try tauto.
  intros [H|[]]. injection H as <- <-. repeat split. discriminate.
Qed.

Lemma entry_keys (b : backend) (r : option str) :
  dict_keys (entry b r) = [] \/ dict_keys (entry b r) = [backend_name b].
Proof.
  unfold entry. destruct r as [[|c t]|]; simpl; auto.
Qed.

Lemma collected_keys_NoDup (w : world) (pdf_path : str) :
  NoDup (dict_keys (collected w pdf_path)).
Proof.
  rewrite collected_entries. unfold dict_keys. rewrite !map_app.
  fold (dict_keys (entry PyPDF2 (pypdf2_result w pdf_path))).
  fold (dict_keys (entry PDFMiner (pdfminer_result w pdf_path))).
  fold (dict_keys (entry PyMuPDF (pymupdf_result w pdf_path))).
  assert (N12 : backend_name PyPDF2 <> backend_name PDFMiner)
    by (intros H; apply backend_name_inj in H; discriminate).
  assert (N13 : backend_name PyPDF2 <> backend_name PyMuPDF)
    by (intros H; apply backend_name_inj in H; discriminate).
  assert (N23 : backend_name PDFMiner <> backend_name PyMuPDF)
    by (intros H; apply backend_name_inj in H; discriminate).
  destruct (entry_keys PyPDF2 (pypdf2_result w pdf_path)) as [-> | ->];
  destruct (entry_keys PDFMiner (pdfminer_result w pdf_path)) as [-> | ->];
  destruct (entry_keys PyMuPDF (pymupdf_result w pdf_path)) as [-> | ->];
    simpl; repeat constructor; simpl; intuition congruence.
Qed.

(** X3. In the dict of results no key occurs twice, and every entry pairs
    the name of a backend with the non-empty string that this backend's
    extractor returned. *)
Theorem results_entries_are_extractor_outputs (w : world) (pdf_path : str)
    (results : dict) :
  value (collect_results w pdf_path) = Return results ->
  NoDup (dict_keys results)
  /\ forall k v : str,
       In (k, v) results ->
       v <> []
       /\ exists b, k = backend_name b
                    /\ value (extract_with w b pdf_path) = Return (Some v).
Proof.
  intros Hv. apply collect_results_value in Hv. subst results.
  split; [apply collected_keys_NoDup|].
  intros k v Hin. rewrite collected_entries in Hin.
  assert (Hb : exists b, In (k, v) (entry b (extractor_result w b pdf_path))).
  { apply in_app_or in Hin. destruct Hin as [H|Hin]; [now exists PyPDF2|].
    apply in_app_or in Hin. destruct Hin as [H|H];
      [now exists PDFMiner | now exists PyMuPDF]. }
  destruct Hb as (b & Hb). apply entry_In in Hb.
  destruct Hb as (-> & Hr & Hne). split; [exact Hne|].
  exists b. split; [reflexivity|].
  now rewrite (run_value (extract_with_run w b pdf_path)), Hr.
Qed.

Lemma results_entries_are_extractor_outputs_witness :
  NoDup (dict_keys (collected healthy main_pdf_path))
  /\ forall k v : str,
       In (k, v) (collected healthy main_pdf_path) ->
       v <> []
       /\ exists b, k = backend_name b
                    /\ value (extract_with healthy b main_pdf_path)
                       = Return (Some v).
Proof.
  apply (@results_entries_are_extractor_outputs healthy main_pdf_path
           (collected healthy main_pdf_path)).
  vm_compute. reflexivity.
Defined.

(* ===================================================================== *)
(** ** Further properties: the report *)
(* ===================================================================== *)

Lemma report_not_empty (w : world) (pdf_path : str) (results : dict)
    (method best_text : str) :
  report w pdf_path results method best_text <> [].
Proof.
  unfold report, report_header. intros H.
  apply (f_equal (@length char)) in H. rewrite !length_app in H.
  change (length (u "# PDF文本提取结果")) with 11 in H. simpl in H. lia.
Qed.

(** The three ways a run of the orchestrator ends. *)
Lemma extract_pdf_text_cases (w : world) (pdf_path : str)
    (output_path : option str) :
  (os_path_exists w pdf_path = false
   /\ value (extract_pdf_text w pdf_path output_path) = Return None)
  \/ (os_path_exists w pdf_path = true
      /\ collected w pdf_path = []
      /\ value (extract_pdf_text w pdf_path output_path) = Return None)
  \/ (os_path_exists w pdf_path = true
      /\ collected w pdf_path <> []
      /\ exists b best_text,
           primary_by_priority (collected w pdf_path) = Some b
           /\ dict_get (collected w pdf_path) (backend_name b)
              = Some best_text
           /\ value (extract_pdf_text w pdf_path output_path)
              = Return (Some (report w pdf_path (collected w pdf_path)
                                (backend_name b) best_text))).
Proof.
  destruct (os_path_exists w pdf_path) eqn:Hex.
  - destruct (collected w pdf_path) as [|kv r] eqn:Ec.
    + right. left. repeat split.
      now destruct (extract_pdf_text_nothing w pdf_path output_path Hex Ec).
    + right. right. rewrite <- Ec.
      assert (Hne : collected w pdf_path <> []) by (rewrite Ec; discriminate).
      destruct (primary_exists Hne (collected_keys_within w pdf_path))
        as [b Hb].
      pose proof (select_best_spec (collected w pdf_path)) as Hsel.
      rewrite Hb in Hsel. destruct Hsel as (best_text & Hget & Hsel).
      repeat split; [exact Hne|]. exists b, best_text.
      repeat split; try assumption.
      now destruct
        (extract_pdf_text_report w pdf_path output_path Hex Hne Hsel).
  - left. split; [reflexivity|].
    now rewrite extract_pdf_text_missing.
Qed.

Lemma collected_not_empty (w : world) (pdf_path : str) :
  collected w pdf_path <> [] <->
  exists b, truthy (extractor_result w b pdf_path) = true.
Proof.
  split.
  - intros Hne.
    destruct (primary_exists Hne (collected_keys_within w pdf_path))
      as [b Hb].
    exists b. apply collected_mem.
    unfold primary_by_priority in Hb. now apply find_some in Hb.
  - intros [b Hb] Hc. apply collected_mem in Hb. now rewrite Hc in Hb.
Qed.

(** X5. The orchestrator returns either [None] or a non-empty report
    text, never the empty string; it returns a report exactly when the
    input file exists and at least one extractor returned a non-empty
    string. *)
Theorem report_iff_some_success (w : world) (pdf_path : str)
    (output_path : option str) :
  (value (extract_pdf_text w pdf_path output_path) = Return None
   \/ exists text, value (extract_pdf_text w pdf_path output_path)
                   = Return (Some text) /\ text <> [])
  /\ ((exists text, value (extract_pdf_text w pdf_path output_path)
                    = Return (Some text))
      <-> os_path_exists w pdf_path = true
          /\ exists b r, value (extract_with w b pdf_path) = Return r
                         /\ truthy r = true).
Proof.
  destruct (extract_pdf_text_cases w pdf_path output_path)
    as [(Hex & V)|[(Hex & Hc & V)|(Hex & Hne & b & t & _ & _ & V)]];
    rewrite V.
  - split; [now left|]. split.
    + intros [text H]. discriminate.
    + intros [H _]. congruence.
  - split; [now left|]. split.
    + intros [text H]. discriminate.
    + intros (_ & b & r & Hr & Ht). exfalso.
      assert (Hne : collected w pdf_path <> []).
      { apply collected_not_empty. exists b.
        now rewrite (extract_with_value _ _ _ Hr). }
      contradiction.
  - split.
    + right. eexists. split; [reflexivity | apply report_not_empty].
    + split; [|intros _; now eexists].
      intros _. split; [exact Hex|].
      apply collected_not_empty in Hne. destruct Hne as [b' Hb'].
      exists b', (extractor_result w b' pdf_path). split; [|exact Hb'].
      apply (run_value (extract_with_run w b' pdf_path)).
Qed.

(** X6. What the orchestrator returns depends neither on the output path
    nor on what the write to the output file does. *)
Theorem result_ignores_output (w : world) (pdf_path : str)
    (output_path output_path' : option str)
    (write : str -> str -> outcome unit) :
  value (extract_pdf_text (with_open_write w write) pdf_path output_path)
  = value (extract_pdf_text w pdf_path output_path').
Proof.
  assert (Hc' : collected (with_open_write w write) pdf_path
                = collected w pdf_path) by reflexivity.
  assert (Hh : report_header (with_open_write w write) pdf_path
               = report_header w pdf_path).
  { unfold report_header. cbn [datetime_now with_open_write]. reflexivity. }
  destruct (extract_pdf_text_cases w pdf_path output_path')
    as [(Hex & V)|[(Hex & Hc & V)|(Hex & Hne & b & t & Hb & Hget & V)]];
    rewrite V.
  - now rewrite extract_pdf_text_missing.
  - rewrite <- Hc' in Hc.
    destruct (@extract_pdf_text_nothing (with_open_write w write)
                pdf_path output_path Hex Hc) as (V' & _).
    exact V'.
  - pose proof (select_best_spec (collected w pdf_path)) as Hsel.
    rewrite Hb in Hsel. destruct Hsel as (t' & Hget' & Hsel).
    assert (t' = t) by congruence. subst t'.
    rewrite <- Hc' in Hne, Hsel.
    destruct (@extract_pdf_text_report (with_open_write w write)
                pdf_path output_path (backend_name b) t Hex Hne Hsel)
      as (V' & _).
    rewrite V'. unfold report. rewrite Hh, Hc'. reflexivity.
Qed.

(** X7. The orchestrator attempts at most one file write: when it returns
    a report and the output path is a non-empty string, it opens that
    path for writing with exactly the text it returns as content (whether
    the attempt then succeeds is the file system's matter); with no
    report, with no output path, or with the empty string as output path
    it attempts no write. *)
Theorem write_attempt_carries_returned_text (w : world) (pdf_path : str)
    (output_path : option str) :
  writes (trace (extract_pdf_text w pdf_path output_path))
  = match value (extract_pdf_text w pdf_path output_path), output_path with
    | Return (Some text), Some ((_ :: _) as path) => [(path, text)]
    | _, _ => []
    end.
Proof.
  destruct (extract_pdf_text_cases w pdf_path output_path)
    as [(Hex & V)|[(Hex & Hc & V)|(Hex & Hne & b & t & Hb & Hget & V)]];
    rewrite V.
  - now rewrite extract_pdf_text_missing.
  - now destruct (extract_pdf_text_nothing w pdf_path output_path Hex Hc)
      as (_ & _ & ->).
  - pose proof (select_best_spec (collected w pdf_path)) as Hsel.
    rewrite Hb in Hsel. destruct Hsel as (t' & Hget' & Hsel).
    assert (t' = t) by congruence. subst t'.
    destruct (extract_pdf_text_report w pdf_path output_path Hex Hne Hsel)
      as (_ & _ & ->).
    now destruct output_path as [[|c path]|].
Qed.

Lemma others_length (d : dict) (key : str) :
  NoDup (dict_keys d) -> dict_mem key d = true ->
  length (filter (fun kv => negb (str_eqb (fst kv) key)) d) = length d - 1.
Proof.
  induction d as [|[k v] r IH]; simpl; [discriminate|].
  intros Hnd Hmem. inversion Hnd as [|k' r' Hnotin Hnd']; subst.
  destruct (str_eqb k key) eqn:E; simpl.
  - apply str_eqb_eq in E. subst k.
    rewrite Nat.sub_0_r. clear IH Hmem Hnd Hnd'.
    induction r as [|[k1 v1] r1 IH1]; simpl; [reflexivity|].
    simpl in Hnotin.
    destruct (str_eqb k1 key) eqn:E1; simpl.
    + apply str_eqb_eq in E1. tauto.
    + f_equal. apply IH1. tauto.
  - rewrite (IH Hnd' Hmem).
    destruct r as [|kv r1]; [discriminate|]. simpl. lia.
Qed.

(** X8. The reference part of a report.  With a single successful backend
    nothing follows the main section.  With more, the reference heading
    follows and after it one section (a heading line with the backend's
    name, then its text) for every entry of the dict other than the chosen
    one, in the order of the dict; these are one fewer than the
    entries. *)
Theorem report_layout (w : world) (pdf_path : str)
    (output_path : option str) (results : dict) :
  os_path_exists w pdf_path = true ->
  value (collect_results w pdf_path) = Return results ->
  results <> [] ->
  exists b text,
    primary_by_priority results = Some b
    /\ dict_get results (backend_name b) = Some text
    /\ value (extract_pdf_text w pdf_path output_path)
       = Return (Some (expected_header pdf_path (datetime_now w)
                         ++ expected_main_section (backend_name b) text
                         ++ (if (length results <=? 1)%nat then []
                             else reference_heading
                                    ++ expected_reference_sections
                                         (filter
                                            (fun kv =>
                                               negb (str_eqb (fst kv)
                                                       (backend_name b)))
                                            results))))
    /\ length (filter (fun kv => negb (str_eqb (fst kv) (backend_name b)))
                 results)
       = length results - 1.
Proof.
  intros Hex Hv Hne. apply collect_results_value in Hv. subst results.
  destruct (extract_pdf_text_cases w pdf_path output_path)
    as [(Hex' & _)|[(_ & Hc & _)|(_ & _ & b & t & Hb & Hget & V)]];
    [congruence | contradiction |].
  exists b, t. split; [exact Hb|]. split; [exact Hget|]. split.
  - rewrite V, report_expected. reflexivity.
  - apply others_length; [apply collected_keys_NoDup|].
    unfold primary_by_priority in Hb. now apply find_some in Hb.
Qed.

Lemma report_layout_witness :
  exists b text,
    primary_by_priority (collected healthy main_pdf_path) = Some b
    /\ dict_get (collected healthy main_pdf_path) (backend_name b) = Some text
    /\ value (extract_pdf_text healthy main_pdf_path (Some main_output_path))
       = Return (Some (expected_header main_pdf_path (datetime_now healthy)
                         ++ expected_main_section (backend_name b) text
                         ++ (if (length (collected healthy main_pdf_path)
                                 <=? 1)%nat
                             then []
                             else reference_heading
                                    ++ expected_reference_sections
                                         (filter
                                            (fun kv =>
                                               negb (str_eqb (fst kv)
                                                       (backend_name b)))
                                            (collected healthy
                                               main_pdf_path)))))
    /\ length (filter (fun kv => negb (str_eqb (fst kv) (backend_name b)))
                 (collected healthy main_pdf_path))
       = length (collected healthy main_pdf_path) - 1.
Proof.
  apply (@report_layout healthy main_pdf_path (Some main_output_path)
           (collected healthy main_pdf_path)).
  - reflexivity.
  - vm_compute. reflexivity.
  - vm_compute. discriminate.
Defined.

Lemma dict_mem_single (key v : str) : dict_mem key [(key, v)] = true.
Proof. simpl. now rewrite str_eqb_refl. Qed.

Lemma dict_mem_other (b b' : backend) (v : str) :
  b <> b' -> dict_mem (backend_name b) [(backend_name b', v)] = false.
Proof.
  intros H. simpl. rewrite backend_name_eqb by congruence. reflexivity.
Qed.

Lemma dict_get_last (d : dict) (key v : str) :
  dict_mem key d = false -> dict_get (d ++ [(key, v)]) key = Some v.
Proof.
  induction d as [|[k0 v0] r IH]; simpl.
  - now rewrite str_eqb_refl.
  - destruct (str_eqb k0 key); simpl; [discriminate | exact IH].
Qed.

Lemma filter_others_last (d : dict) (key v : str) :
  dict_mem key d = false ->
  filter (fun kv => negb (str_eqb (fst kv) key)) (d ++ [(key, v)]) = d.
Proof.
  induction d as [|[k0 v0] r IH]; cbn [app filter fst dict_mem].
  - now rewrite str_eqb_refl.
  - destruct (str_eqb k0 key); cbn [orb negb]; [discriminate|].
    intros H. now rewrite IH.
Qed.

(** The report when the chosen backend is the last entry of the dict. *)
Lemma report_primary_last (w : world) (pdf_path : str)
    (output_path : option str) (d : dict) (b : backend) (T : str) :
  os_path_exists w pdf_path = true ->
  collected w pdf_path = d ++ [(backend_name b, T)] ->
  dict_mem (backend_name b) d = false ->
  primary_by_priority (collected w pdf_path) = Some b ->
  value (extract_pdf_text w pdf_path output_path)
  = Return (Some (expected_header pdf_path (datetime_now w)
                    ++ expected_main_section (backend_name b) T
                    ++ match d with
                       | [] => []
                       | _ :: _ =>
                           reference_heading
                             ++ expected_reference_sections d
                       end)).
Proof.
  intros Hex Hc Hfresh Hb.
  assert (Hne : collected w pdf_path <> [])
    by (rewrite Hc; now destruct d).
  pose proof (select_best_spec (collected w pdf_path)) as Hsel.
  rewrite Hb in Hsel. destruct Hsel as (t & Hget & Hsel).
  rewrite Hc in Hget. rewrite dict_get_last in Hget by exact Hfresh.
  injection Hget as <-.
  destruct (extract_pdf_text_report w pdf_path output_path Hex Hne Hsel)
    as (-> & _).
  rewrite report_expected, Hc. unfold expected_references.
  rewrite filter_others_last by exact Hfresh.
  rewrite length_app. destruct d as [|kv r]; [reflexivity|].
  cbn [length].
  destruct (Nat.leb_spec (S (length r) + 1) 1); [lia | reflexivity].
Qed.

(** X9. Whenever PyMuPDF's extractor returned a non-empty string [T], the
    report is the header, then the main section headed with the name
    PyMuPDF and carrying [T], whatever the other two returned; the
    reference part lists PyPDF2's output and then PDFMiner's, each under
    its name, as far as they succeeded, and is absent when neither did. *)
Theorem pymupdf_success_is_main (w : world) (pdf_path : str)
    (output_path : option str) (r1 r2 : option str) (T : str) :
  os_path_exists w pdf_path = true ->
  value (extract_with_pypdf2 w pdf_path) = Return r1 ->
  value (extract_with_pdfminer w pdf_path) = Return r2 ->
  value (extract_with_pymupdf w pdf_path) = Return (Some T) ->
  T <> [] ->
  value (extract_pdf_text w pdf_path output_path)
  = Return (Some (expected_header pdf_path (datetime_now w)
                    ++ (u "## 主要内容 (使用 PyMuPDF)" ++ nl ++ nl
                          ++ T ++ nl ++ nl)
                    ++ match entry PyPDF2 r1 ++ entry PDFMiner r2 with
                       | [] => []
                       | (_ :: _) as others =>
                           u "## 其他方法提取结果（参考）" ++ nl ++ nl
                             ++ expected_reference_sections others
                       end)).
Proof.
  intros Hex H1 H2 H3 HT.
  apply (extract_with_value w PyPDF2) in H1.
  apply (extract_with_value w PDFMiner) in H2.
  apply (extract_with_value w PyMuPDF) in H3.
  simpl in H1, H2, H3.
  assert (Hc : collected w pdf_path
               = (entry PyPDF2 r1 ++ entry PDFMiner r2)
                   ++ [(backend_name PyMuPDF, T)]).
  { rewrite collected_entries, H1, H2, H3, <- app_assoc. unfold entry at 3.
    apply truthy_str_true in HT. now rewrite HT. }
  assert (Hfresh : dict_mem (backend_name PyMuPDF)
                     (entry PyPDF2 r1 ++ entry PDFMiner r2) = false).
  { rewrite dict_mem_app, !entry_mem by discriminate. reflexivity. }
  assert (Hb : primary_by_priority (collected w pdf_path) = Some PyMuPDF).
  { unfold primary_by_priority, priority. simpl find.
    now rewrite Hc, dict_mem_app, dict_mem_single, orb_true_r. }
  rewrite (@report_primary_last w pdf_path output_path _ _ _ Hex Hc Hfresh
             Hb).
  destruct (entry PyPDF2 r1 ++ entry PDFMiner r2); reflexivity.
Qed.

Lemma pymupdf_success_is_main_witness :
  value (extract_pdf_text healthy main_pdf_path (Some main_output_path))
  = Return (Some (expected_header main_pdf_path (datetime_now healthy)
                    ++ (u "## 主要内容 (使用 PyMuPDF)" ++ nl ++ nl
                          ++ expected_sections (u "PyMuPDF") 1 three_pages
                          ++ nl ++ nl)
                    ++ match entry PyPDF2
                               (Some (expected_sections (u "PyPDF2") 1
                                        three_pages))
                             ++ entry PDFMiner
                                  (Some (pdfminer_block
                                           (u "Intro" ++ nl ++ u "End")))
                       with
                       | [] => []
                       | (_ :: _) as others =>
                           u "## 其他方法提取结果（参考）" ++ nl ++ nl
                             ++ expected_reference_sections others
                       end)).
Proof.
  apply (@pymupdf_success_is_main healthy main_pdf_path
           (Some main_output_path)).
  - reflexivity.
  - reflexivity.
  - reflexivity.
  - reflexivity.
  - vm_compute. discriminate.
Defined.

(** X10. When PyMuPDF's extractor failed and PDFMiner's returned a
    non-empty string [T], the report is the header, then the main section
    headed with the name PDFMiner and carrying [T]; PyPDF2's output, if it
    succeeded, is the only reference section. *)
Theorem pdfminer_is_main_when_pymupdf_fails (w : world) (pdf_path : str)
    (output_path : option str) (r1 r3 : option str) (T : str) :
  os_path_exists w pdf_path = true ->
  value (extract_with_pypdf2 w pdf_path) = Return r1 ->
  value (extract_with_pdfminer w pdf_path) = Return (Some T) ->
  T <> [] ->
  value (extract_with_pymupdf w pdf_path) = Return r3 ->
  truthy r3 = false ->
  value (extract_pdf_text w pdf_path output_path)
  = Return (Some (expected_header pdf_path (datetime_now w)
                    ++ (u "## 主要内容 (使用 PDFMiner)" ++ nl ++ nl
                          ++ T ++ nl ++ nl)
                    ++ match entry PyPDF2 r1 with
                       | [] => []
                       | (_ :: _) as others =>
                           u "## 其他方法提取结果（参考）" ++ nl ++ nl
                             ++ expected_reference_sections others
                       end)).
Proof.
  intros Hex H1 H2 HT H3 Hr3.
  apply (extract_with_value w PyPDF2) in H1.
  apply (extract_with_value w PDFMiner) in H2.
  apply (extract_with_value w PyMuPDF) in H3.
  simpl in H1, H2, H3.
  assert (E3 : entry PyMuPDF r3 = []).
  { unfold entry. destruct r3 as [[|c t]|]; simpl in *; congruence. }
  assert (Hc : collected w pdf_path
               = entry PyPDF2 r1 ++ [(backend_name PDFMiner, T)]).
  { rewrite collected_entries, H1, H2, H3, E3, app_nil_r. unfold entry at 2.
    apply truthy_str_true in HT. now rewrite HT. }
  assert (Hfresh : dict_mem (backend_name PDFMiner) (entry PyPDF2 r1) = false)
    by (apply entry_mem; discriminate).
  assert (Hb : primary_by_priority (collected w pdf_path) = Some PDFMiner).
  { unfold primary_by_priority, priority. simpl find.
    rewrite Hc, !dict_mem_app, entry_mem by discriminate.
    rewrite dict_mem_other by discriminate.
    now rewrite dict_mem_single, orb_true_r. }
  rewrite (@report_primary_last w pdf_path output_path _ _ _ Hex Hc Hfresh
             Hb).
  destruct (entry PyPDF2 r1); reflexivity.
Qed.

(** In the world of the witness PyPDF2 and pdfminer succeed and PyMuPDF is
    missing, so the report has PyPDF2's output as its one reference
    section. *)
Lemma pdfminer_is_main_when_pymupdf_fails_witness :
  value (extract_pdf_text no_pymupdf main_pdf_path None)
  = Return (Some (expected_header main_pdf_path (datetime_now no_pymupdf)
                    ++ (u "## 主要内容 (使用 PDFMiner)" ++ nl ++ nl
                          ++ pdfminer_block (u "Intro" ++ nl ++ u "End")
                          ++ nl ++ nl)
                    ++ match entry PyPDF2
                               (Some (expected_sections (u "PyPDF2") 1
                                        three_pages))
                       with
                       | [] => []
                       | (_ :: _) as others =>
                           u "## 其他方法提取结果（参考）" ++ nl ++ nl
                             ++ expected_reference_sections others
                       end)).
Proof.
  apply (@pdfminer_is_main_when_pymupdf_fails no_pymupdf main_pdf_path
           None (Some (expected_sections (u "PyPDF2") 1 three_pages)) None
           (pdfminer_block (u "Intro" ++ nl ++ u "End"))).
  - reflexivity.
  - reflexivity.
  - reflexivity.
  - vm_compute. discriminate.
  - reflexivity.
  - reflexivity.
Defined.

(* ===================================================================== *)
(** ** Further properties: the console and the output file *)
(* ===================================================================== *)

Lemma exception_not_truthy (w : world) (b : backend) (pdf_path : str)
    (e : exn) :
  backend_exception w b pdf_path = Some e ->
  truthy (extractor_result w b pdf_path) = false.
Proof.
  intros He. rewrite backend_raises_none; [reflexivity|].
  apply backend_exception_raises. congruence.
Qed.

(** X11. What the collection phase does, backend by backend in call order:
    it prints the attempt line and enters the extractor, which prints the
    page count once its document is open; then either a library call
    raised an exception and the failure line with the exception's text
    follows, or the extractor returned a non-empty string and the success
    line follows, or (a document without text) nothing follows.  A backend
    never gets both a failure and a success line. *)
Theorem collection_console (w : world) (pdf_path : str) :
  trace (collect_results w pdf_path)
  = flat_map
      (fun b =>
         attempt_line b :: Invoke b pdf_path :: count_line w b pdf_path
           ++ match backend_exception w b pdf_path with
              | Some e => [failure_line b e]
              | None =>
                  if dict_mem (backend_name b) (collected w pdf_path)
                  then [success_line b] else []
              end)
      [PyPDF2; PDFMiner; PyMuPDF].
Proof.
  rewrite collect_results_trace.
  assert (Hblock : forall b,
    attempt_line b
      :: trace (extract_with w b pdf_path)
      ++ (if truthy (extractor_result w b pdf_path)
          then [success_line b] else [])
    = attempt_line b :: Invoke b pdf_path :: count_line w b pdf_path
        ++ match backend_exception w b pdf_path with
           | Some e => [failure_line b e]
           | None =>
               if dict_mem (backend_name b) (collected w pdf_path)
               then [success_line b] else []
           end).
  { intros b.
    assert (Ht : trace (extract_with w b pdf_path)
                 = Invoke b pdf_path
                     :: count_line w b pdf_path
                     ++ match backend_exception w b pdf_path with
                        | Some e => [failure_line b e]
                        | None => []
                        end)
      by (destruct b; [apply extract_with_pypdf2_trace
                      | apply extract_with_pdfminer_trace
                      | apply extract_with_pymupdf_trace]).
    rewrite Ht. cbn [app]. rewrite <- app_assoc. do 2 f_equal. f_equal.
    destruct (backend_exception w b pdf_path) as [e|] eqn:He.
    - now rewrite (exception_not_truthy w b pdf_path He).
    - cbn [app].
      destruct (truthy (extractor_result w b pdf_path)) eqn:Et.
      + apply collected_mem in Et. now rewrite Et.
      + destruct (dict_mem _ _) eqn:Em; [|reflexivity].
        apply collected_mem in Em. congruence. }
  cbn [flat_map]. now rewrite !Hblock.
Qed.

Lemma main_output_path_not_empty : main_output_path <> [].
Proof. intros H. vm_compute in H. discriminate H. Qed.

Lemma trace_with_save (w : world) (pdf_path path text : str) :
  os_path_exists w pdf_path = true ->
  value (extract_pdf_text w pdf_path (Some path)) = Return (Some text) ->
  path <> [] ->
  trace (extract_pdf_text w pdf_path (Some path))
  = Print (u "开始提取PDF文件: " ++ pdf_path)
      :: trace (collect_results w pdf_path)
      ++ [WriteFile path text;
          match open_write w path text with
          | Return _ => Print (nl ++ u "提取结果已保存到: " ++ path)
          | Raise e => Print (u "保存文件失败: " ++ exn_str e)
          end].
Proof.
  intros Hex Hv Hpath.
  rewrite (extract_pdf_text_trace w pdf_path (Some path) Hex), Hv.
  rewrite save_report_trace.
  destruct path as [|c path]; [contradiction | reflexivity].
Qed.

(** X12. When the orchestrator returns a report and the output path is a
    non-empty string, the write is the last thing it does, after the whole
    collection phase, and exactly one line follows it: the confirmation
    with the path when the write returned, the failure line with the
    exception's message when it raised. *)
Theorem save_comes_last (w : world) (pdf_path path text : str) :
  os_path_exists w pdf_path = true ->
  value (extract_pdf_text w pdf_path (Some path)) = Return (Some text) ->
  path <> [] ->
  trace (extract_pdf_text w pdf_path (Some path))
  = Print (u "开始提取PDF文件: " ++ pdf_path)
      :: trace (collect_results w pdf_path)
      ++ [WriteFile path text;
          match open_write w path text with
          | Return _ => Print (nl ++ u "提取结果已保存到: " ++ path)
          | Raise e => Print (u "保存文件失败: " ++ exn_str e)
          end].
Proof. apply trace_with_save. Qed.

Lemma save_comes_last_witness :
  trace (extract_pdf_text only_pdfminer main_pdf_path (Some main_output_path))
  = Print (u "开始提取PDF文件: " ++ main_pdf_path)
      :: trace (collect_results only_pdfminer main_pdf_path)
      ++ [WriteFile main_output_path
            (report only_pdfminer main_pdf_path
               (collected only_pdfminer main_pdf_path) (u "PDFMiner")
               (pdfminer_block (u "Intro" ++ nl ++ u "End")));
          match open_write only_pdfminer main_output_path
                  (report only_pdfminer main_pdf_path
                     (collected only_pdfminer main_pdf_path) (u "PDFMiner")
                     (pdfminer_block (u "Intro" ++ nl ++ u "End")))
          with
          | Return _ => Print (nl ++ u "提取结果已保存到: " ++ main_output_path)
          | Raise e => Print (u "保存文件失败: " ++ exn_str e)
          end].
Proof.
  apply (@save_comes_last only_pdfminer main_pdf_path main_output_path).
  - reflexivity.
  - vm_compute. reflexivity.
  - vm_compute. discriminate.
Defined.

(** X13. A document that the three libraries read without error but that
    carries no text (every page blank for PyPDF2 and PyMuPDF, blank text
    from pdfminer) yields no report and no file; the console shows the
    attempts and the page counts, then the overall failure line, and no
    failure line of any backend. *)
Theorem blank_document_yields_no_report (w : world) (pdf_path : str)
    (output_path : option str) (pages1 pages3 : list str) (text2 : str) :
  os_path_exists w pdf_path = true ->
  PdfReader_pages w pdf_path = Return (map (@Return str) pages1) ->
  forallb (fun page_text => forallb isspace page_text) pages1 = true ->
  pdfminer_extract_text w pdf_path = Return text2 ->
  forallb isspace text2 = true ->
  fitz_open w pdf_path = Return (map (@Return str) pages3) ->
  forallb (fun page_text => forallb isspace page_text) pages3 = true ->
  fitz_close w pdf_path = Return tt ->
  value (extract_pdf_text w pdf_path output_path) = Return None
  /\ trace (extract_pdf_text w pdf_path output_path)
     = [Print (u "开始提取PDF文件: " ++ pdf_path);
        attempt_line PyPDF2; Invoke PyPDF2 pdf_path;
        Print (u "PyPDF2: 检测到 " ++ str_of_nat (length pages1) ++ u " 页");
        attempt_line PDFMiner; Invoke PDFMiner pdf_path;
        attempt_line PyMuPDF; Invoke PyMuPDF pdf_path;
        Print (u "PyMuPDF: 检测到 " ++ str_of_nat (length pages3) ++ u " 页");
        Print (u "所有方法都无法提取文本内容")].
Proof.
  intros Hex H1 B1 H2 B2 H3 B3 Hclose.
  assert (Hblank : forall b n pages,
            forallb (fun page_text => forallb isspace page_text) pages = true ->
            paged_text b n pages = []).
  { intros b n pages Hb. apply paged_text_empty.
    rewrite forallb_forall in *. intros s Hs. unfold has_text.
    now rewrite (Hb s Hs). }
  assert (Hfirst : forall pages : list str,
            first_raise (map (@Return str) pages) = None)
    by (induction pages; simpl; auto).
  assert (R1 : pypdf2_result w pdf_path = Some []).
  { unfold pypdf2_result.
    now rewrite H1, page_loop_all_return, (Hblank _ _ _ B1). }
  assert (R2 : pdfminer_result w pdf_path = None).
  { unfold pdfminer_result, has_text. now rewrite H2, B2. }
  assert (R3 : pymupdf_result w pdf_path = Some []).
  { unfold pymupdf_result.
    now rewrite H3, page_loop_all_return, (Hblank _ _ _ B3), Hclose. }
  assert (Hc : collected w pdf_path = []).
  { apply collected_empty. intros b. destruct b; simpl;
      [now rewrite R1 | now rewrite R2 | now rewrite R3]. }
  destruct (extract_pdf_text_nothing w pdf_path output_path Hex Hc)
    as (V & _).
  split; [exact V|].
  rewrite (extract_pdf_text_trace w pdf_path output_path Hex), V.
  rewrite collect_results_trace. cbn [flat_map extract_with extractor_result].
  rewrite extract_with_pypdf2_trace, extract_with_pdfminer_trace,
    extract_with_pymupdf_trace, R1, R2, R3.
  unfold count_line, backend_exception.
  rewrite H1, H2, H3, !Hfirst, Hclose, !length_map.
  reflexivity.
Qed.

Lemma blank_document_yields_no_report_witness :
  value (extract_pdf_text scanned main_pdf_path (Some main_output_path))
  = Return None
  /\ trace (extract_pdf_text scanned main_pdf_path (Some main_output_path))
     = [Print (u "开始提取PDF文件: " ++ main_pdf_path);
        attempt_line PyPDF2; Invoke PyPDF2 main_pdf_path;
        Print (u "PyPDF2: 检测到 " ++ str_of_nat (length [u " " ++ nl])
                 ++ u " 页");
        attempt_line PDFMiner; Invoke PDFMiner main_pdf_path;
        attempt_line PyMuPDF; Invoke PyMuPDF main_pdf_path;
        Print (u "PyMuPDF: 检测到 " ++ str_of_nat (length [@nil char])
                 ++ u " 页");
        Print (u "所有方法都无法提取文本内容")].
Proof.
  apply (@blank_document_yields_no_report scanned main_pdf_path
           (Some main_output_path) [u " " ++ nl] [ [] ] (u " " ++ nl));
    reflexivity.
Defined.

(* ===================================================================== *)
(** ** Further properties: the entry point *)
(* ===================================================================== *)

Lemma main_missing (w : world) :
  os_path_exists w main_pdf_path = false ->
  main w = (Return tt,
            [Print (u "错误: 找不到PDF文件 - " ++ main_pdf_path);
             Print (u "请确认文件路径是否正确")]).
Proof. intros H. unfold main. cbv zeta. now rewrite H. Qed.

Lemma main_present (w : world) (r : option str) :
  os_path_exists w main_pdf_path = true ->
  value (extract_pdf_text w main_pdf_path (Some main_output_path)) = Return r ->
  main w = (Return tt,
            trace (extract_pdf_text w main_pdf_path (Some main_output_path))
              ++ summary r).
Proof.
  intros Hex Hr. unfold main. cbv zeta. rewrite Hex. simpl negb. cbv iota.
  rewrite (surjective_run
             (extract_pdf_text w main_pdf_path (Some main_output_path))), Hr.
  unfold bind at 1. destruct r as [[|c t]|]; reflexivity.
Qed.

(** X14. When the hard-coded input file is missing, [main] prints its two
    error lines and does nothing else: the orchestrator is not run.
    Otherwise it runs the orchestrator once, on the two hard-coded paths,
    and then prints the summary: on a report the completion line, the
    number of characters of the report and the output path; on [None] the
    failure line. *)
Theorem main_runs_orchestrator_once (w : world) :
  (os_path_exists w main_pdf_path = false ->
   trace (main w)
   = [Print (u "错误: 找不到PDF文件 - " ++ main_pdf_path);
      Print (u "请确认文件路径是否正确")])
  /\ (os_path_exists w main_pdf_path = true ->
      exists r,
        value (extract_pdf_text w main_pdf_path (Some main_output_path))
        = Return r
        /\ trace (main w)
           = trace (extract_pdf_text w main_pdf_path (Some main_output_path))
               ++ match r with
                  | Some ((_ :: _) as text) =>
                      [Print (nl ++ u "=== 提取完成 ===");
                       Print (u "文本长度: " ++ str_of_nat (length text)
                                ++ u " 字符");
                       Print (u "输出文件: " ++ main_output_path)]
                  | _ => [Print (nl ++ u "=== 提取失败 ===")]
                  end).
Proof.
  destruct (extract_pdf_text_returns w main_pdf_path (Some main_output_path))
    as [r Hr].
  destruct (os_path_exists w main_pdf_path) eqn:Hex.
  - rewrite (main_present w Hex Hr).
    split; [discriminate|]. intros _. now exists r.
  - rewrite (main_missing w Hex).
    split; [reflexivity | discriminate].
Qed.

(** X15. When extraction succeeded but the write to the output file
    raised, [main] still prints the completion summary, with the length of
    the report and the output path, right after the line that reports the
    failed write. *)
Theorem main_reports_completion_after_failed_write (w : world) (text : str)
    (e : exn) :
  os_path_exists w main_pdf_path = true ->
  value (extract_pdf_text w main_pdf_path (Some main_output_path))
  = Return (Some text) ->
  open_write w main_output_path text = Raise e ->
  trace (main w)
  = Print (u "开始提取PDF文件: " ++ main_pdf_path)
      :: trace (collect_results w main_pdf_path)
      ++ [WriteFile main_output_path text;
          Print (u "保存文件失败: " ++ exn_str e);
          Print (nl ++ u "=== 提取完成 ===");
          Print (u "文本长度: " ++ str_of_nat (length text) ++ u " 字符");
          Print (u "输出文件: " ++ main_output_path)].
Proof.
  intros Hex Hv Hw.
  assert (Hne : text <> []).
  { destruct (extract_pdf_text_cases w main_pdf_path (Some main_output_path))
      as [(_ & V)|[(_ & _ & V)|(_ & _ & b & t & _ & _ & V)]];
      rewrite V in Hv; try discriminate.
    injection Hv as <-. apply report_not_empty. }
  rewrite (main_present w Hex Hv). cbn [trace snd].
  rewrite (@trace_with_save w _ _ _ Hex Hv main_output_path_not_empty), Hw.
  destruct text as [|c t]; [contradiction|].
  cbn [summary app]. rewrite <- app_assoc. reflexivity.
Qed.

Lemma main_reports_completion_after_failed_write_witness :
  trace (main (with_open_write only_pdfminer
                 (fun _ _ => Raise (Exception (u "Permission denied")))))
  = Print (u "开始提取PDF文件: " ++ main_pdf_path)
      :: trace (collect_results
                  (with_open_write only_pdfminer
                     (fun _ _ => Raise (Exception (u "Permission denied"))))
                  main_pdf_path)
      ++ [WriteFile main_output_path
            (report only_pdfminer main_pdf_path
               (collected only_pdfminer main_pdf_path) (u "PDFMiner")
               (pdfminer_block (u "Intro" ++ nl ++ u "End")));
          Print (u "保存文件失败: "
                   ++ exn_str (Exception (u "Permission denied")));
          Print (nl ++ u "=== 提取完成 ===");
          Print (u "文本长度: "
                   ++ str_of_nat
                        (length
                           (report only_pdfminer main_pdf_path
                              (collected only_pdfminer main_pdf_path)
                              (u "PDFMiner")
                              (pdfminer_block (u "Intro" ++ nl ++ u "End"))))
                   ++ u " 字符");
          Print (u "输出文件: " ++ main_output_path)].
Proof.
  apply (@main_reports_completion_after_failed_write
           (with_open_write only_pdfminer
              (fun _ _ => Raise (Exception (u "Permission denied"))))).
  - reflexivity.
  - vm_compute. reflexivity.
  - reflexivity.
Defined.

(* ===================================================================== *)
(** ** Further properties: page numbers *)
(* ===================================================================== *)

Lemma paged_text_app (b : backend) (pre post : list str) : forall n,
  paged_text b n (pre ++ post)
  = paged_text b n pre ++ paged_text b (n + length pre) post.
Proof.
  induction pre as [|page_text r IH]; intros n.
  - rewrite Nat.add_0_r. reflexivity.
  - rewrite <- app_comm_cons, !paged_text_cons, IH, <- app_assoc.
    cbn [length]. now rewrite Nat.add_succ_comm.
Qed.

(** X16. The number in a page marker is the position of the page in the
    document, counted from 1, blank pages included: a blank page adds
    nothing to the output and the pages after it keep their numbers.  Both
    page-iterating extractors number pages this way. *)
Theorem page_numbers_are_positions (w : world) (pdf_path : str)
    (b : backend) (pre post : list str) (blank : str) :
  forallb isspace blank = true ->
  (b = PyPDF2
   /\ PdfReader_pages w pdf_path
      = Return (map (@Return str) (pre ++ blank :: post)))
  \/ (b = PyMuPDF
      /\ fitz_open w pdf_path
         = Return (map (@Return str) (pre ++ blank :: post))
      /\ fitz_close w pdf_path = Return tt) ->
  value (extract_with w b pdf_path)
  = Return (Some (expected_sections (backend_name b) 1 pre
                    ++ expected_sections (backend_name b) (length pre + 2)
                         post)).
Proof.
  intros Hblank Hdoc.
  assert (Hsplit : paged_text b 1 (pre ++ blank :: post)
                   = paged_text b 1 pre
                       ++ paged_text b (length pre + 2) post).
  { rewrite paged_text_app, paged_text_cons. unfold has_text.
    rewrite Hblank. cbn [negb app]. do 2 f_equal. lia. }
  rewrite <- !paged_text_expected, <- Hsplit.
  rewrite (run_value (extract_with_run w b pdf_path)).
  destruct Hdoc as [(-> & H)|(-> & H & Hc)]; simpl.
  - unfold pypdf2_result. now rewrite H, page_loop_all_return.
  - unfold pymupdf_result. now rewrite H, page_loop_all_return, Hc.
Qed.

(** In the witness the blank page is the second of three: the third page
    keeps the number 3. *)
Lemma page_numbers_are_positions_witness :
  value (extract_with healthy PyMuPDF main_pdf_path)
  = Return (Some (expected_sections (backend_name PyMuPDF) 1 [u "Intro"]
                    ++ expected_sections (backend_name PyMuPDF)
                         (length [u "Intro"] + 2) [u "End"])).
Proof.
  apply (@page_numbers_are_positions healthy main_pdf_path PyMuPDF
           [u "Intro"] [u "End"] (u " " ++ nl)).
  - reflexivity.
  - right. repeat split.
Defined.
